(** * Session manager, access guards and verification timers

    A shallow embedding of the authentication core of the application:
    [AuthService] (session state, sign-up / sign-in / sign-out flows, email
    verification check and its polling timer), the route guards of
    [auth-guard.service.ts] and the resend cooldown of
    [VerifyEmailComponent].

    Asynchronous methods are embedded as computations in a state-and-exception
    monad: every [await] is a sequencing point, a rejected promise is a thrown
    value.  One method call runs to completion before the next one starts
    (the flows are serialised around one identity lifecycle); the
    [onAuthStateChanged] listener is a separate entry point and is not
    interleaved with a running call. *)

From Stdlib Require Import ZArith Lia.
From stdpp Require Import base strings list gmap.

Local Open Scope string_scope.

(** ** Data model *)

(** [role: 'user' | 'admin' | 'technician'] *)
Inductive Role := RoleUser | RoleAdmin | RoleTechnician.

(** [createdAt: any], [lastLoginAt: any]: either the [serverTimestamp()]
    sentinel or a time that was read back from the store. *)
Inductive TimeField := ServerTimestamp | TimeAt (t : nat).

(** [interface UserData].  [photoURL?: string | null] is [None] when the
    field is absent and [Some None] when it is [null]; [provider?: string]
    is [None] when absent. *)
Record UserData := {
  uid : string;
  email : string;
  displayName : string;
  role : Role;
  createdAt : TimeField;
  lastLoginAt : TimeField;
  emailVerified : bool;
  photoURL : option (option string);
  provider : option string
}.

(** In-place field assignments [userData.f = v]. *)
Definition set_emailVerified (b : bool) (u : UserData) : UserData :=
  {| uid := uid u; email := email u; displayName := displayName u;
     role := role u; createdAt := createdAt u; lastLoginAt := lastLoginAt u;
     emailVerified := b; photoURL := photoURL u; provider := provider u |}.

Definition set_lastLoginAt (t : TimeField) (u : UserData) : UserData :=
  {| uid := uid u; email := email u; displayName := displayName u;
     role := role u; createdAt := createdAt u; lastLoginAt := t;
     emailVerified := emailVerified u; photoURL := photoURL u;
     provider := provider u |}.

(** [interface AuthError] *)
Record AuthError := { code : string; message : string }.

(** A value caught from a failing SDK call ([error: any]): an object whose
    [code] and [message] properties may be missing ([None] is [undefined]). *)
Record JsError := { err_code : option string; err_message : option string }.

(** JavaScript truthiness of a string-or-undefined value. *)
Definition truthy_str (v : option string) : bool :=
  match v with
  | Some s => negb (String.eqb s "")
  | None => false
  end.

(** [v || d] on a string-or-undefined value. *)
Definition or_else (v : option string) (d : string) : string :=
  match v with
  | Some s => if truthy_str v then s else d
  | None => d
  end.

(** ** ErrorTranslator: [AuthService.handleAuthError] *)

Definition generic_message : string :=
  "An unexpected error occurred. Please try again.".

(** [scrutinee === label], where the scrutinee may be [undefined]. *)
Definition case_matches (scrutinee : option string) (label : string) : bool :=
  match scrutinee with
  | Some c => String.eqb c label
  | None => false
  end.

Definition handleAuthError (error : JsError) : AuthError :=
  let c := err_code error in
  let message :=
    if case_matches c "auth/user-not-found" then
      "No account found with this email address."
    else if case_matches c "auth/wrong-password" then
      "Incorrect password. Please try again."
    else if case_matches c "auth/email-already-in-use" then
      "An account with this email already exists."
    else if case_matches c "auth/weak-password" then
      "Password should be at least 6 characters long."
    else if case_matches c "auth/invalid-email" then
      "Please enter a valid email address."
    else if case_matches c "auth/user-disabled" then
      "This account has been disabled. Please contact support."
    else if case_matches c "auth/too-many-requests" then
      "Too many failed attempts. Please try again later."
    else if case_matches c "auth/network-request-failed" then
      "Network error. Please check your connection and try again."
    else if case_matches c "auth/popup-closed-by-user" then
      "Sign-in was cancelled. Please try again."
    else if case_matches c "auth/cancelled-popup-request" then
      "Only one popup request is allowed at a time."
    else generic_message in
  {| code := or_else (err_code error) "unknown"; message := message |}.

(** ** AccessGuard evaluator: [auth-guard.service.ts] *)

(** [router.navigate(commands, { queryParams })] *)
Record Navigation := {
  commands : list string;
  queryParams : list (string * string)
}.

Definition navigate (path : string) : Navigation :=
  {| commands := [path]; queryParams := [] |}.

(** [RouterStateSnapshot], of which the guards read [url] only. *)
Record RouterStateSnapshot := { url : string }.

(** [user.provider === 'email'] *)
Definition provider_is_email (user : UserData) : bool :=
  case_matches (provider user) "email".

(** The body of the [map] callback of each guard: the value the observable
    emits and the navigations issued, as a function of the single value that
    [currentUser$.pipe(take(1))] delivers (the current session snapshot). *)
Definition AuthGuard_canActivate
    (user : option UserData) (state : RouterStateSnapshot)
  : bool * list Navigation :=
  match user with
  | Some user =>
      if negb (emailVerified user) && provider_is_email user
      then (false, [navigate "/verify-email"])
      else (true, [])
  | None =>
      (false, [ {| commands := ["/login"];
                   queryParams := [("returnUrl", url state)] |} ])
  end.

Definition role_eqb (a b : Role) : bool :=
  match a, b with
  | RoleUser, RoleUser | RoleAdmin, RoleAdmin
  | RoleTechnician, RoleTechnician => true
  | _, _ => false
  end.

Definition AdminGuard_canActivate
    (user : option UserData) (state : RouterStateSnapshot)
  : bool * list Navigation :=
  match user with
  | Some user =>
      if emailVerified user && role_eqb (role user) RoleAdmin
      then (true, [])
      else (false, [navigate "/dashboard"])
  | None => (false, [navigate "/dashboard"])
  end.

Definition TechnicianGuard_canActivate
    (user : option UserData) (state : RouterStateSnapshot)
  : bool * list Navigation :=
  match user with
  | Some user =>
      if emailVerified user && role_eqb (role user) RoleTechnician
      then (true, [])
      else (false, [navigate "/dashboard"])
  | None => (false, [navigate "/dashboard"])
  end.

Definition GuestGuard_canActivate (user : option UserData)
  : bool * list Navigation :=
  match user with
  | Some user =>
      if negb (emailVerified user) && provider_is_email user
      then (false, [navigate "/verify-email"])
      else (false, [navigate "/dashboard"])
  | None => (true, [])
  end.

(** ** The runtime around the service *)

(** The provider-side [User] object, as far as the service reads it.
    [email], [displayName] and [photoURL] are [string | null];
    [providerData] is kept as the list of its [providerId]s. *)
Record FirebaseUser := {
  user_uid : string;
  user_email : option string;
  user_displayName : option string;
  user_emailVerified : bool;
  user_photoURL : option string;
  user_providerData : list string
}.

Definition with_displayName (n : string) (u : FirebaseUser) : FirebaseUser :=
  {| user_uid := user_uid u; user_email := user_email u;
     user_displayName := Some n; user_emailVerified := user_emailVerified u;
     user_photoURL := user_photoURL u;
     user_providerData := user_providerData u |}.

(** [reload(user)] refreshes the object in place: the identifier stays, the
    profile is what the provider answers. *)
Definition refreshed (u fresh : FirebaseUser) : FirebaseUser :=
  {| user_uid := user_uid u; user_email := user_email fresh;
     user_displayName := user_displayName fresh;
     user_emailVerified := user_emailVerified fresh;
     user_photoURL := user_photoURL fresh;
     user_providerData := user_providerData fresh |}.

(** Partial updates sent with [updateDoc]. *)
Inductive Patch :=
| PatchEmailVerified (b : bool)
| PatchLastLoginAt (t : TimeField).

Definition apply_patch (p : Patch) (d : UserData) : UserData :=
  match p with
  | PatchEmailVerified b => set_emailVerified b d
  | PatchLastLoginAt t => set_lastLoginAt t d
  end.

(** Requests that leave the process, in the order they are made. *)
Inductive Request :=
| ReqCreateUser (email password : string)
| ReqSignInWithPassword (email password : string)
| ReqSignInWithPopup (providerId : string) (scopes : list string)
| ReqUpdateProfile (uid displayName : string)
| ReqSendEmailVerification (uid : string)
| ReqReload (uid : string)
| ReqSignOut
| ReqSendPasswordResetEmail (email : string)
| ReqGetDoc (uid : string)
| ReqSetDoc (uid : string) (data : UserData)
| ReqUpdateDoc (uid : string) (patch : Patch).

(** The remote collaborators (Identity Provider, network in front of the
    User Directory) are not part of the repository: what they answer is a
    parameter.  Each answer may depend on every request made so far. *)
Record Remote := {
  createUser_answer : list Request -> string -> string -> JsError + FirebaseUser;
  signInWithPassword_answer :
    list Request -> string -> string -> JsError + FirebaseUser;
  signInWithPopup_answer :
    list Request -> string -> list string -> JsError + FirebaseUser;
  updateProfile_answer : list Request -> FirebaseUser -> string -> option JsError;
  sendEmailVerification_answer : list Request -> FirebaseUser -> option JsError;
  reload_answer : list Request -> FirebaseUser -> JsError + FirebaseUser;
  signOut_answer : list Request -> option JsError;
  sendPasswordResetEmail_answer : list Request -> string -> option JsError;
  (** a failure of the store or of the network on a directory request *)
  firestore_fault : list Request -> Request -> option JsError
}.

(** Callbacks handed to [setInterval] / [setTimeout]. *)
Inductive Callback :=
| EmailVerificationCheckTick   (* AuthService.startEmailVerificationCheck *)
| ResendCooldownTick           (* VerifyEmailComponent.startResendCooldown *)
| HideSuccessMessage.          (* VerifyEmailComponent.showSuccessMessage *)

Record Timer := {
  callback : Callback;
  delay_ms : nat;
  repeating : bool      (* [setInterval] or [setTimeout] *)
}.

(** A field typed [any] that holds a timer id: [undefined] until first
    assigned, [null] after [stop], a number in between. *)
Inductive Handle := HUndefined | HNull | HTimer (id : nat).

(** [if (handle)] *)
Definition truthy_handle (h : Handle) : bool :=
  match h with
  | HTimer id => negb (id =? 0)%nat
  | _ => false
  end.

Record World := {
  auth_currentUser : option FirebaseUser;  (* [this.auth.currentUser] *)
  users : gmap string UserData;            (* Firestore collection 'users' *)
  timers : gmap nat Timer;                 (* scheduled and not cleared *)
  next_timer : nat;                        (* next id the scheduler gives *)
  navigations : list Navigation;           (* [router.navigate], oldest first *)
  console : list string;                   (* [console.error] *)
  success_message : option bool;           (* '.success-message': has 'show'? *)
  requests : list Request                  (* oldest first *)
}.

(** [BehaviorSubject<A>]: the current value and every value passed to
    [next], oldest first. *)
Record BehaviorSubject (A : Type) := {
  value : A;
  emitted : list A
}.
Arguments value {A} _.
Arguments emitted {A} _.
Arguments Build_BehaviorSubject {A} _ _.

Definition new_BehaviorSubject {A} (a : A) : BehaviorSubject A :=
  {| value := a; emitted := [] |}.

Definition next {A} (a : A) (b : BehaviorSubject A) : BehaviorSubject A :=
  {| value := a; emitted := emitted b ++ [a] |}.

Record AuthService := {
  currentUserSubject : BehaviorSubject (option UserData);
  loadingSubject : BehaviorSubject bool;
  emailVerificationCheckInterval : Handle
}.

Record VerifyEmailComponent := {
  userEmail : string;
  loading : bool;
  error : option string;
  resendCooldown : Z;
  checkingVerification : bool;
  verificationCheckInterval : Handle;
  resendCooldownInterval : Handle
}.

Record State := {
  svc : AuthService;
  cmp : VerifyEmailComponent;
  world : World
}.

Definition new_AuthService : AuthService :=
  {| currentUserSubject := new_BehaviorSubject None;
     loadingSubject := new_BehaviorSubject true;
     emailVerificationCheckInterval := HUndefined |}.

Definition new_VerifyEmailComponent : VerifyEmailComponent :=
  {| userEmail := ""; loading := false; error := None; resendCooldown := 0;
     checkingVerification := false; verificationCheckInterval := HUndefined;
     resendCooldownInterval := HUndefined |}.

(** A page that has just loaded: nobody signed in, empty directory, no timer
    scheduled; the scheduler hands out positive ids. *)
Definition new_World : World :=
  {| auth_currentUser := None; users := ∅; timers := ∅; next_timer := 1;
     navigations := []; console := []; success_message := None;
     requests := [] |}.

Definition new_State : State :=
  {| svc := new_AuthService; cmp := new_VerifyEmailComponent;
     world := new_World |}.

(** ** State and exceptions *)

(** What a [throw] carries: a raw error of the SDK, or an [AuthError] built
    by [handleAuthError]. *)
Inductive Exn := ExnRaw (e : JsError) | ExnAuth (a : AuthError).

(** The thrown value as [handleAuthError] and [catch (error: any)] read it. *)
Definition exn_as_error (x : Exn) : JsError :=
  match x with
  | ExnRaw e => e
  | ExnAuth a => {| err_code := Some (code a); err_message := Some (message a) |}
  end.

Inductive Outcome (A : Type) := Returned (a : A) | Thrown (x : Exn).
Arguments Returned {A} _.
Arguments Thrown {A} _.

Definition M (A : Type) : Type := State -> Outcome A * State.

Definition ret {A} (a : A) : M A := fun s => (Returned a, s).

Definition bind {A B} (m : M A) (k : A -> M B) : M B :=
  fun s =>
    match m s with
    | (Returned a, s') => k a s'
    | (Thrown x, s') => (Thrown x, s')
    end.

Definition throw {A} (x : Exn) : M A := fun s => (Thrown x, s).

(** [try { body } catch (error) { handler }] *)
Definition try_catch {A} (body : M A) (handler : Exn -> M A) : M A :=
  fun s =>
    match body s with
    | (Returned a, s') => (Returned a, s')
    | (Thrown x, s') => handler x s'
    end.

(** [try { body } finally { fin }] *)
Definition try_finally {A} (body : M A) (fin : M unit) : M A :=
  fun s =>
    match body s with
    | (r, s') =>
        match fin s' with
        | (Returned _, s'') => (r, s'')
        | (Thrown x, s'') => (Thrown x, s'')
        end
    end.

Definition get : M State := fun s => (Returned s, s).
Definition modify (f : State -> State) : M unit := fun s => (Returned tt, f s).

Declare Scope js_scope.
Delimit Scope js_scope with js.
Notation "x <- c1 ;; c2" := (bind c1 (fun x => c2))
  (at level 100, c1 at next level, right associativity) : js_scope.
Notation "c1 ;; c2" := (bind c1 (fun _ => c2))
  (at level 100, right associativity) : js_scope.
Local Open Scope js_scope.

Definition run {A} (m : M A) (s : State) : Outcome A * State := m s.

(** ** Field assignments *)

Definition with_world (f : World -> World) (s : State) : State :=
  {| svc := svc s; cmp := cmp s; world := f (world s) |}.

Definition with_svc (f : AuthService -> AuthService) (s : State) : State :=
  {| svc := f (svc s); cmp := cmp s; world := world s |}.

Definition with_cmp (f : VerifyEmailComponent -> VerifyEmailComponent)
    (s : State) : State :=
  {| svc := svc s; cmp := f (cmp s); world := world s |}.

Definition set_auth_currentUser (u : option FirebaseUser) (w : World) : World :=
  {| auth_currentUser := u; users := users w; timers := timers w;
     next_timer := next_timer w; navigations := navigations w;
     console := console w; success_message := success_message w;
     requests := requests w |}.

Definition set_users (d : gmap string UserData) (w : World) : World :=
  {| auth_currentUser := auth_currentUser w; users := d; timers := timers w;
     next_timer := next_timer w; navigations := navigations w;
     console := console w; success_message := success_message w;
     requests := requests w |}.

Definition set_timers (t : gmap nat Timer) (n : nat) (w : World) : World :=
  {| auth_currentUser := auth_currentUser w; users := users w; timers := t;
     next_timer := n; navigations := navigations w;
     console := console w; success_message := success_message w;
     requests := requests w |}.

Definition add_navigation (n : Navigation) (w : World) : World :=
  {| auth_currentUser := auth_currentUser w; users := users w;
     timers := timers w; next_timer := next_timer w;
     navigations := navigations w ++ [n];
     console := console w; success_message := success_message w;
     requests := requests w |}.

Definition add_console (line : string) (w : World) : World :=
  {| auth_currentUser := auth_currentUser w; users := users w;
     timers := timers w; next_timer := next_timer w;
     navigations := navigations w;
     console := console w ++ [line]; success_message := success_message w;
     requests := requests w |}.

Definition set_success_message (m : option bool) (w : World) : World :=
  {| auth_currentUser := auth_currentUser w; users := users w;
     timers := timers w; next_timer := next_timer w;
     navigations := navigations w;
     console := console w; success_message := m;
     requests := requests w |}.

Definition add_request (r : Request) (w : World) : World :=
  {| auth_currentUser := auth_currentUser w; users := users w;
     timers := timers w; next_timer := next_timer w;
     navigations := navigations w;
     console := console w; success_message := success_message w;
     requests := requests w ++ [r] |}.

Definition set_currentUserSubject (b : BehaviorSubject (option UserData))
    (a : AuthService) : AuthService :=
  {| currentUserSubject := b; loadingSubject := loadingSubject a;
     emailVerificationCheckInterval := emailVerificationCheckInterval a |}.

Definition set_loadingSubject (b : BehaviorSubject bool)
    (a : AuthService) : AuthService :=
  {| currentUserSubject := currentUserSubject a; loadingSubject := b;
     emailVerificationCheckInterval := emailVerificationCheckInterval a |}.

Definition set_emailVerificationCheckInterval (h : Handle)
    (a : AuthService) : AuthService :=
  {| currentUserSubject := currentUserSubject a;
     loadingSubject := loadingSubject a;
     emailVerificationCheckInterval := h |}.

Definition set_loading (b : bool) (c : VerifyEmailComponent)
  : VerifyEmailComponent :=
  {| userEmail := userEmail c; loading := b; error := error c;
     resendCooldown := resendCooldown c;
     checkingVerification := checkingVerification c;
     verificationCheckInterval := verificationCheckInterval c;
     resendCooldownInterval := resendCooldownInterval c |}.

Definition set_error (e : option string) (c : VerifyEmailComponent)
  : VerifyEmailComponent :=
  {| userEmail := userEmail c; loading := loading c; error := e;
     resendCooldown := resendCooldown c;
     checkingVerification := checkingVerification c;
     verificationCheckInterval := verificationCheckInterval c;
     resendCooldownInterval := resendCooldownInterval c |}.

Definition set_resendCooldown (n : Z) (c : VerifyEmailComponent)
  : VerifyEmailComponent :=
  {| userEmail := userEmail c; loading := loading c; error := error c;
     resendCooldown := n;
     checkingVerification := checkingVerification c;
     verificationCheckInterval := verificationCheckInterval c;
     resendCooldownInterval := resendCooldownInterval c |}.

Definition set_resendCooldownInterval (h : Handle) (c : VerifyEmailComponent)
  : VerifyEmailComponent :=
  {| userEmail := userEmail c; loading := loading c; error := error c;
     resendCooldown := resendCooldown c;
     checkingVerification := checkingVerification c;
     verificationCheckInterval := verificationCheckInterval c;
     resendCooldownInterval := h |}.

(** ** Scheduler, router, console *)

Definition schedule (cb : Callback) (ms : nat) (rep : bool) : M nat :=
  s <- get ;;
  let id := next_timer (world s) in
  modify (with_world (fun w =>
    set_timers (<[id := {| callback := cb; delay_ms := ms; repeating := rep |}]>
                  (timers w)) (S id) w)) ;;
  ret id.

Definition setInterval (cb : Callback) (ms : nat) : M nat := schedule cb ms true.
Definition setTimeout (cb : Callback) (ms : nat) : M nat := schedule cb ms false.

Definition unschedule (id : nat) : M unit :=
  modify (with_world (fun w => set_timers (delete id (timers w)) (next_timer w) w)).

(** [clearInterval(handle)]: a value that is not the id of a scheduled
    timer clears nothing. *)
Definition clearInterval (h : Handle) : M unit :=
  match h with
  | HTimer id => unschedule id
  | _ => ret tt
  end.

Definition router_navigate (n : Navigation) : M unit :=
  modify (with_world (add_navigation n)).

Definition console_error (line : string) : M unit :=
  modify (with_world (add_console line)).

Definition currentUserSubject_next (u : option UserData) : M unit :=
  modify (with_svc (fun a =>
    set_currentUserSubject (next u (currentUserSubject a)) a)).

Definition loadingSubject_next (b : bool) : M unit :=
  modify (with_svc (fun a => set_loadingSubject (next b (loadingSubject a)) a)).

Section Program.

(** What the Identity Provider and the network answer. *)
Variable remote : Remote.

(** ** The SDK calls, as the service sees them *)

(** Record the request and return what was asked before it. *)
Definition request (r : Request) : M (list Request) :=
  s <- get ;;
  modify (with_world (add_request r)) ;;
  ret (requests (world s)).

(** A call that resolves to an identity also makes it [auth.currentUser]. *)
Definition resolve_identity (a : JsError + FirebaseUser) : M FirebaseUser :=
  match a with
  | inl e => throw (ExnRaw e)
  | inr u => modify (with_world (set_auth_currentUser (Some u))) ;; ret u
  end.

Definition resolve_unit (a : option JsError) : M unit :=
  match a with
  | Some e => throw (ExnRaw e)
  | None => ret tt
  end.

Definition createUserWithEmailAndPassword (email password : string)
  : M FirebaseUser :=
  h <- request (ReqCreateUser email password) ;;
  resolve_identity (createUser_answer remote h email password).

Definition signInWithEmailAndPassword (email password : string)
  : M FirebaseUser :=
  h <- request (ReqSignInWithPassword email password) ;;
  resolve_identity (signInWithPassword_answer remote h email password).

Definition signInWithPopup (providerId : string) (scopes : list string)
  : M FirebaseUser :=
  h <- request (ReqSignInWithPopup providerId scopes) ;;
  resolve_identity (signInWithPopup_answer remote h providerId scopes).

(** [updateProfile(user, { displayName })]: on success the user object,
    which is [auth.currentUser], carries the new name. *)
Definition updateProfile (user : FirebaseUser) (displayName : string) : M unit :=
  h <- request (ReqUpdateProfile (user_uid user) displayName) ;;
  resolve_unit (updateProfile_answer remote h user displayName) ;;
  modify (with_world (set_auth_currentUser (Some (with_displayName displayName user)))).

Definition auth_sendEmailVerification (user : FirebaseUser) : M unit :=
  h <- request (ReqSendEmailVerification (user_uid user)) ;;
  resolve_unit (sendEmailVerification_answer remote h user).

(** [reload(user)]: [user] is the [auth.currentUser] object and is refreshed
    in place; the computation returns the object after the refresh. *)
Definition reload (user : FirebaseUser) : M FirebaseUser :=
  h <- request (ReqReload (user_uid user)) ;;
  match reload_answer remote h user with
  | inl e => throw (ExnRaw e)
  | inr fresh =>
      modify (with_world (set_auth_currentUser (Some (refreshed user fresh)))) ;;
      ret (refreshed user fresh)
  end.

Definition auth_signOut : M unit :=
  h <- request ReqSignOut ;;
  resolve_unit (signOut_answer remote h) ;;
  modify (with_world (set_auth_currentUser None)).

Definition sendPasswordResetEmail (email : string) : M unit :=
  h <- request (ReqSendPasswordResetEmail email) ;;
  resolve_unit (sendPasswordResetEmail_answer remote h email).

(** The 'users' collection.  [getDoc] resolves to the document or to
    nothing ([exists()] false); [setDoc] creates or overwrites; [updateDoc]
    merges the fields into an existing document and is rejected with
    [not-found] when there is none.  Any of them may also be rejected by the
    store or the network. *)
Definition not_found : JsError :=
  {| err_code := Some "not-found";
     err_message := Some "No document to update" |}.

Definition getDoc (uid : string) : M (option UserData) :=
  h <- request (ReqGetDoc uid) ;;
  resolve_unit (firestore_fault remote h (ReqGetDoc uid)) ;;
  s <- get ;;
  ret (users (world s) !! uid).

Definition setDoc (uid : string) (data : UserData) : M unit :=
  h <- request (ReqSetDoc uid data) ;;
  resolve_unit (firestore_fault remote h (ReqSetDoc uid data)) ;;
  modify (with_world (fun w => set_users (<[uid := data]> (users w)) w)).

Definition updateDoc (uid : string) (p : Patch) : M unit :=
  h <- request (ReqUpdateDoc uid p) ;;
  resolve_unit (firestore_fault remote h (ReqUpdateDoc uid p)) ;;
  s <- get ;;
  match users (world s) !! uid with
  | Some d =>
      modify (with_world (fun w => set_users (<[uid := apply_patch p d]> (users w)) w))
  | None => throw (ExnRaw not_found)
  end.

(** ** SessionManager: [AuthService] *)

Definition getUserData (uid : string) : M (option UserData) :=
  try_catch
    (getDoc uid)
    (fun error => console_error "Error getting user data:" ;; ret None).

Definition saveUserData (userData : UserData) : M unit :=
  try_catch
    (setDoc (uid userData) userData)
    (fun error => console_error "Error saving user data:" ;; throw error).

Definition updateLastLogin (uid : string) : M unit :=
  try_catch
    (updateDoc uid (PatchLastLoginAt ServerTimestamp))
    (fun error => console_error "Error updating last login:").

(** [catch (error: any) { throw this.handleAuthError(error); }] *)
Definition rethrow_translated {A} (error : Exn) : M A :=
  throw (ExnAuth (handleAuthError (exn_as_error error))).

(** [user.photoURL || null] *)
Definition photo_or_null (p : option string) : option (option string) :=
  Some (if truthy_str p then p else None).

Definition signUp (email password displayName : string) : M unit :=
  try_finally
    (try_catch
       (loadingSubject_next true ;;
        user <- createUserWithEmailAndPassword email password ;;
        updateProfile user displayName ;;
        auth_sendEmailVerification user ;;
        let userData :=
          {| uid := user_uid user;
             email := or_else (user_email user) "";
             displayName := displayName;
             role := RoleUser;
             createdAt := ServerTimestamp;
             lastLoginAt := ServerTimestamp;
             emailVerified := false;
             photoURL := None;
             provider := Some "email" |} in
        saveUserData userData ;;
        currentUserSubject_next (Some userData))
       rethrow_translated)
    (loadingSubject_next false).

Definition signIn (email password : string) : M unit :=
  try_finally
    (try_catch
       (loadingSubject_next true ;;
        user <- signInWithEmailAndPassword email password ;;
        updateLastLogin (user_uid user) ;;
        userData <- getUserData (user_uid user) ;;
        match userData with
        | Some userData =>
            let userData := set_lastLoginAt ServerTimestamp userData in
            let userData := set_emailVerified (user_emailVerified user) userData in
            currentUserSubject_next (Some userData)
        | None => ret tt
        end)
       rethrow_translated)
    (loadingSubject_next false).

(** The common body of [signInWithGoogle] and [signInWithFacebook], which
    differ in the provider object, its scopes and the [provider] tag. *)
Definition signInWithSocialProvider
    (providerId : string) (scopes : list string) (tag : string) : M unit :=
  try_finally
    (try_catch
       (loadingSubject_next true ;;
        user <- signInWithPopup providerId scopes ;;
        userData <- getUserData (user_uid user) ;;
        userData <-
          match userData with
          | None =>
              let userData :=
                {| uid := user_uid user;
                   email := or_else (user_email user) "";
                   displayName := or_else (user_displayName user) "User";
                   role := RoleUser;
                   createdAt := ServerTimestamp;
                   lastLoginAt := ServerTimestamp;
                   emailVerified := user_emailVerified user;
                   photoURL := photo_or_null (user_photoURL user);
                   provider := Some tag |} in
              saveUserData userData ;;
              ret userData
          | Some userData =>
              updateLastLogin (user_uid user) ;;
              let userData := set_lastLoginAt ServerTimestamp userData in
              let userData := set_emailVerified (user_emailVerified user) userData in
              ret userData
          end ;;
        currentUserSubject_next (Some userData))
       rethrow_translated)
    (loadingSubject_next false).

Definition signInWithGoogle : M unit :=
  signInWithSocialProvider "google.com" ["email"; "profile"] "google".

Definition signInWithFacebook : M unit :=
  signInWithSocialProvider "facebook.com" ["email"] "facebook".

Definition sendEmailVerification : M unit :=
  s <- get ;;
  match auth_currentUser (world s) with
  | Some user =>
      if negb (user_emailVerified user)
      then try_catch (auth_sendEmailVerification user) rethrow_translated
      else ret tt
  | None => ret tt
  end.

Definition checkEmailVerification : M bool :=
  s <- get ;;
  match auth_currentUser (world s) with
  | Some user =>
      user <- reload user ;;
      let isVerified := user_emailVerified user in
      (if isVerified then
         updateDoc (user_uid user) (PatchEmailVerified true) ;;
         s <- get ;;
         match value (currentUserSubject (svc s)) with
         | Some currentUser =>
             currentUserSubject_next (Some (set_emailVerified true currentUser))
         | None => ret tt
         end
       else ret tt) ;;
      ret isVerified
  | None => ret false
  end.

Definition startEmailVerificationCheck : M unit :=
  id <- setInterval EmailVerificationCheckTick 3000 ;;
  modify (with_svc (set_emailVerificationCheckInterval (HTimer id))).

Definition stopEmailVerificationCheck : M unit :=
  s <- get ;;
  if truthy_handle (emailVerificationCheckInterval (svc s)) then
    clearInterval (emailVerificationCheckInterval (svc s)) ;;
    modify (with_svc (set_emailVerificationCheckInterval HNull))
  else ret tt.

(** The callback of [startEmailVerificationCheck]. *)
Definition emailVerificationCheck_tick : M unit :=
  isVerified <- checkEmailVerification ;;
  if isVerified : bool then
    stopEmailVerificationCheck ;;
    router_navigate (navigate "/dashboard")
  else ret tt.

Definition signOut : M unit :=
  try_catch
    (stopEmailVerificationCheck ;;
     auth_signOut ;;
     currentUserSubject_next None ;;
     router_navigate (navigate "/login"))
    rethrow_translated.

Definition resetPassword (email : string) : M unit :=
  try_catch (sendPasswordResetEmail email) rethrow_translated.

(** The listener registered by [initializeAuthState]. *)
Definition onAuthStateChanged_listener (user : option FirebaseUser) : M unit :=
  match user with
  | Some user =>
      userData <- getUserData (user_uid user) ;;
      match userData with
      | Some userData => currentUserSubject_next (Some userData)
      | None =>
          let newUserData :=
            {| uid := user_uid user;
               email := or_else (user_email user) "";
               displayName := or_else (user_displayName user) "User";
               role := RoleUser;
               createdAt := ServerTimestamp;
               lastLoginAt := ServerTimestamp;
               emailVerified := user_emailVerified user;
               photoURL := photo_or_null (user_photoURL user);
               provider := Some (or_else (head (user_providerData user)) "email") |} in
          saveUserData newUserData ;;
          currentUserSubject_next (Some newUserData)
      end
  | None => currentUserSubject_next None
  end ;;
  loadingSubject_next false.

(** ** Resend cooldown: [VerifyEmailComponent] *)

Definition stopResendCooldown : M unit :=
  s <- get ;;
  if truthy_handle (resendCooldownInterval (cmp s)) then
    clearInterval (resendCooldownInterval (cmp s)) ;;
    modify (with_cmp (set_resendCooldownInterval HNull))
  else ret tt.

(** The callback of [startResendCooldown]. *)
Definition resendCooldown_tick : M unit :=
  modify (with_cmp (fun c => set_resendCooldown (resendCooldown c - 1) c)) ;;
  s <- get ;;
  if (resendCooldown (cmp s) <=? 0)%Z then stopResendCooldown else ret tt.

Definition startResendCooldown : M unit :=
  id <- setInterval ResendCooldownTick 1000 ;;
  modify (with_cmp (set_resendCooldownInterval (HTimer id))).

Definition showSuccessMessage : M unit :=
  s <- get ;;
  match success_message (world s) with
  | Some _ =>
      modify (with_world (set_success_message (Some true))) ;;
      _ <- setTimeout HideSuccessMessage 3000 ;;
      ret tt
  | None => ret tt
  end.

(** The callback of the timeout of [showSuccessMessage]. *)
Definition hideSuccessMessage : M unit :=
  modify (with_world (fun w =>
    set_success_message (option_map (fun _ => false) (success_message w)) w)).

Definition resendVerificationEmail : M unit :=
  s <- get ;;
  if (0 <? resendCooldown (cmp s))%Z || loading (cmp s) then ret tt
  else
    modify (with_cmp (set_loading true)) ;;
    modify (with_cmp (set_error None)) ;;
    try_finally
      (try_catch
         (sendEmailVerification ;;
          modify (with_cmp (set_resendCooldown 60)) ;;
          startResendCooldown ;;
          showSuccessMessage)
         (fun error =>
            modify (with_cmp (set_error
              (Some (or_else (err_message (exn_as_error error))
                             "Failed to send verification email"))))))
      (modify (with_cmp (set_loading false))).

(** ** The scheduler runs a timer *)

(** A rejection inside an [async] timer callback reaches nobody. *)
Definition unobserved (m : M unit) : M unit :=
  try_catch m (fun _ => ret tt).

Definition run_callback (cb : Callback) : M unit :=
  match cb with
  | EmailVerificationCheckTick => unobserved emailVerificationCheck_tick
  | ResendCooldownTick => resendCooldown_tick
  | HideSuccessMessage => hideSuccessMessage
  end.

(** One expiry of timer [id]: nothing when it is not scheduled any more; a
    timeout is spent by running. *)
Definition fire (id : nat) : M unit :=
  s <- get ;;
  match timers (world s) !! id with
  | Some t =>
      (if repeating t then ret tt else unschedule id) ;;
      run_callback (callback t)
  | None => ret tt
  end.

(** [k] expiries of timer [id] in a row. *)
Fixpoint fire_times (k : nat) (id : nat) : M unit :=
  match k with
  | O => ret tt
  | S k => fire id ;; fire_times k id
  end.

End Program.

(** ** Entry points named in the statements *)

(** The published current session: [currentUserSubject.value]. *)
Definition session (s : State) : option UserData :=
  value (currentUserSubject (svc s)).

(** The four calls that establish a session. *)
Inductive Flow :=
| CallSignUp (email password displayName : string)
| CallSignIn (email password : string)
| CallSignInWithGoogle
| CallSignInWithFacebook.

Definition call (remote : Remote) (f : Flow) : M unit :=
  match f with
  | CallSignUp email password displayName =>
      signUp remote email password displayName
  | CallSignIn email password => signIn remote email password
  | CallSignInWithGoogle => signInWithGoogle remote
  | CallSignInWithFacebook => signInWithFacebook remote
  end.

(** The periodic timer that [startEmailVerificationCheck] schedules. *)
Definition verification_check_timer : Timer :=
  {| callback := EmailVerificationCheckTick; delay_ms := 3000;
     repeating := true |}.

(** The periodic timer that [startResendCooldown] schedules. *)
Definition resend_cooldown_timer : Timer :=
  {| callback := ResendCooldownTick; delay_ms := 1000; repeating := true |}.

(** What can happen to the page, one thing at a time. *)
Inductive Event :=
| Resend                                   (* resendVerificationEmail() *)
| Expire (id : nat)                        (* the scheduler runs timer [id] *)
| Establish (f : Flow)                     (* a sign-up or sign-in call *)
| SendEmailVerification
| CheckEmailVerification
| StartEmailVerificationCheck
| StopEmailVerificationCheck
| SignOut
| ResetPassword (email : string)
| AuthStateChanged (user : option FirebaseUser).

Definition happen (remote : Remote) (e : Event) : M unit :=
  match e with
  | Resend => resendVerificationEmail remote
  | Expire id => fire remote id
  | Establish f => call remote f
  | SendEmailVerification => sendEmailVerification remote
  | CheckEmailVerification => _ <- checkEmailVerification remote ;; ret tt
  | StartEmailVerificationCheck => startEmailVerificationCheck
  | StopEmailVerificationCheck => stopEmailVerificationCheck
  | SignOut => signOut remote
  | ResetPassword email => resetPassword remote email
  | AuthStateChanged user => onAuthStateChanged_listener remote user
  end.

(** The state after a sequence of events; what an event throws goes to its
    caller and does not stop the next event. *)
Fixpoint after (remote : Remote) (es : list Event) (s : State) : State :=
  match es with
  | [] => s
  | e :: es => after remote es (snd (run (happen remote e) s))
  end.

(** What holds of the cooldown between events: the scheduler never hands out
    id 0, no resend is in flight, the counter is within 0..60, and a
    scheduled cooldown timer is the one the component holds, with time left
    on the counter. *)
Definition cooldown_invariant (s : State) : Prop :=
  (0 < next_timer (world s))%nat /\
  timers (world s) !! 0%nat = None /\
  loading (cmp s) = false /\
  (0 <= resendCooldown (cmp s) <= 60)%Z /\
  forall id t,
    timers (world s) !! id = Some t ->
    callback t = ResendCooldownTick ->
    resendCooldownInterval (cmp s) = HTimer id /\
    (0 < resendCooldown (cmp s))%Z.

(** What a call of the service may do to the component and the timer table:
    the component is untouched, ids only grow, and every timer in the table
    afterwards was there before or is a verification check. *)
Definition service_footprint (s s' : State) : Prop :=
  cmp s' = cmp s /\
  (next_timer (world s) <= next_timer (world s'))%nat /\
  forall id t,
    timers (world s') !! id = Some t ->
    timers (world s) !! id = Some t \/
    (id = next_timer (world s) /\ callback t = EmailVerificationCheckTick).

(** Every timer in the table got its id from the scheduler. *)
Definition ids_handed_out (w : World) : Prop :=
  forall id, is_Some (timers w !! id) -> (id < next_timer w)%nat.

(** ** Tables and sample data used in the statements *)

(** The failure codes the translator enumerates, each with its message. *)
Definition enumerated_failures : list (string * string) :=
  [ ("auth/user-not-found", "No account found with this email address.");
    ("auth/wrong-password", "Incorrect password. Please try again.");
    ("auth/email-already-in-use", "An account with this email already exists.");
    ("auth/weak-password", "Password should be at least 6 characters long.");
    ("auth/invalid-email", "Please enter a valid email address.");
    ("auth/user-disabled",
     "This account has been disabled. Please contact support.");
    ("auth/too-many-requests",
     "Too many failed attempts. Please try again later.");
    ("auth/network-request-failed",
     "Network error. Please check your connection and try again.");
    ("auth/popup-closed-by-user", "Sign-in was cancelled. Please try again.");
    ("auth/cancelled-popup-request",
     "Only one popup request is allowed at a time.") ].

Definition sample_user : UserData :=
  {| uid := "u1"; email := "a@b.com"; displayName := "Ann";
     role := RoleUser; createdAt := ServerTimestamp;
     lastLoginAt := ServerTimestamp; emailVerified := false;
     photoURL := None; provider := Some "email" |}.


Definition sample_identity : FirebaseUser :=
  {| user_uid := "u1"; user_email := Some "a@b.com";
     user_displayName := Some "Ann"; user_emailVerified := false;
     user_photoURL := None; user_providerData := ["password"] |}.

Definition verified_identity : FirebaseUser :=
  {| user_uid := "u1"; user_email := Some "a@b.com";
     user_displayName := Some "Ann"; user_emailVerified := true;
     user_photoURL := None; user_providerData := ["password"] |}.

Definition network_failure : JsError :=
  {| err_code := Some "auth/network-request-failed";
     err_message := Some "Firebase: Error (auth/network-request-failed)." |}.

(** A remote side that answers every identity call with [who], every other
    provider call with [idp] and every directory request with [store]
    ([None] is success). *)
Definition steady_remote (who : JsError + FirebaseUser)
    (idp store : option JsError) : Remote :=
  {| createUser_answer := fun _ _ _ => who;
     signInWithPassword_answer := fun _ _ _ => who;
     signInWithPopup_answer := fun _ _ _ => who;
     updateProfile_answer := fun _ _ _ => idp;
     sendEmailVerification_answer := fun _ _ => idp;
     reload_answer := fun _ _ => who;
     signOut_answer := fun _ => idp;
     sendPasswordResetEmail_answer := fun _ _ => idp;
     firestore_fault := fun _ _ => store |}.

(** Everything succeeds; the provider knows the user as not yet verified. *)
Definition obliging_remote : Remote := steady_remote (inr sample_identity) None None.

(** Everything succeeds; the provider reports the user verified. *)
Definition verified_remote : Remote := steady_remote (inr verified_identity) None None.

(** The provider works, every directory request is rejected. *)
Definition directory_down_remote : Remote :=
  steady_remote (inr sample_identity) None
    (Some {| err_code := Some "unavailable";
             err_message := Some "Failed to get document because the client is offline." |}).

Definition offline_directory : JsError :=
  {| err_code := Some "unavailable";
     err_message := Some "Failed to get document because the client is offline." |}.

(** The provider reports the user verified, every directory request is
    rejected. *)
Definition verified_directory_down_remote : Remote :=
  steady_remote (inr verified_identity) None (Some offline_directory).

(** Every call to the provider fails with a network error. *)
Definition unreachable_remote : Remote :=
  steady_remote (inl network_failure) (Some network_failure) None.

(** The user of [sample_identity] is signed in at the provider and has a
    directory record, which is the published session. *)
Definition signed_in_State : State :=
  {| svc := {| currentUserSubject :=
                 {| value := Some sample_user; emitted := [Some sample_user] |};
               loadingSubject := {| value := false; emitted := [false] |};
               emailVerificationCheckInterval := HUndefined |};
     cmp := new_VerifyEmailComponent;
     world := {| auth_currentUser := Some sample_identity;
                 users := {[ "u1" := sample_user ]};
                 timers := ∅; next_timer := 1; navigations := [];
                 console := []; success_message := Some false;
                 requests := [] |} |}.

(** [signed_in_State] after one resend request that the provider accepts. *)
Definition cooling_State : State :=
  snd (run (resendVerificationEmail obliging_remote) signed_in_State).

(** [signed_in_State] once the service polls for verification. *)
Definition polling_State : State :=
  snd (run startEmailVerificationCheck signed_in_State).

(** * The rest of the session manager, the guards and their callers *)

From Stdlib Require Import Ascii.

(** ** Utility getters of [AuthService] *)

Definition isAuthenticated (s : State) : bool :=
  match value (currentUserSubject (svc s)) with
  | Some _ => true
  | None => false
  end.

Definition isEmailVerified (s : State) : bool :=
  match value (currentUserSubject (svc s)) with
  | Some user => emailVerified user
  | None => false
  end.

Definition currentUser (s : State) : option UserData :=
  value (currentUserSubject (svc s)).

Definition isAdmin (s : State) : bool :=
  match value (currentUserSubject (svc s)) with
  | Some user => role_eqb (role user) RoleAdmin
  | None => false
  end.

Definition isTechnician (s : State) : bool :=
  match value (currentUserSubject (svc s)) with
  | Some user => role_eqb (role user) RoleTechnician
  | None => false
  end.

(** ** The route table: [app.routes.ts] *)

(** The guard classes a route lists under [canActivate]. *)
Inductive GuardClass := UseAuthGuard | UseAdminGuard | UseTechnicianGuard | UseGuestGuard.

Definition canActivate (g : GuardClass) (user : option UserData)
    (state : RouterStateSnapshot) : bool * list Navigation :=
  match g with
  | UseAuthGuard => AuthGuard_canActivate user state
  | UseAdminGuard => AdminGuard_canActivate user state
  | UseTechnicianGuard => TechnicianGuard_canActivate user state
  | UseGuestGuard => GuestGuard_canActivate user
  end.

(** A child of a route: its path below the parent and its [redirectTo], as
    written. *)
Record ChildRoute := {
  child_path : list string;
  child_redirectTo : option string
}.

(** A route of the table.  Paths are kept as their segments (['technician';
    'dashboard'] for 'technician/dashboard', no segment for ''); the
    components are left out. *)
Record Route := {
  path : list string;
  guards : list GuardClass;
  redirectTo : option string;
  children : list ChildRoute
}.

Definition page (p : list string) (gs : list GuardClass) : Route :=
  {| path := p; guards := gs; redirectTo := None; children := [] |}.

Definition child (p : list string) : ChildRoute :=
  {| child_path := p; child_redirectTo := None |}.

Definition routes : list Route :=
  [ page [] [];
    page ["home"] [];
    page ["login"] [UseGuestGuard];
    page ["signup"] [UseGuestGuard];
    {| path := ["signUp"]; guards := []; redirectTo := Some "/signup";
       children := [] |};
    page ["verify-email"] [];
    page ["about"] [];
    page ["contact"] [];
    page ["services"] [];
    page ["technicians"] [];
    page ["technician"; "dashboard"] [UseTechnicianGuard];
    page ["jobs"] [UseTechnicianGuard];
    page ["technicianearnings"] [UseTechnicianGuard];
    page ["dashboard"] [UseAuthGuard];
    page ["vehicles"] [UseAuthGuard];
    page ["service-history"] [UseAuthGuard];
    {| path := ["admin"]; guards := [UseAdminGuard]; redirectTo := None;
       children :=
         [ {| child_path := []; child_redirectTo := Some "dashboard" |};
           child ["dashboard"]; child ["customers"]; child ["drivers"];
           child ["technicians"]; child ["orders"]; child ["stock"];
           child ["financial"] ] |};
    {| path := ["**"]; guards := []; redirectTo := Some "/home";
       children := [] |} ].

(** What the router makes of a URL, given as its segments: a page to
    activate behind some guards, or a redirect to follow.  An absolute
    redirect gives the whole new URL, so the query of the request is gone; a
    relative one replaces segments only and the query stays. *)
Inductive Matched :=
| Activate (gs : list GuardClass)
| RedirectTo (absolute : bool) (target : list string).

(** A [redirectTo] that starts with '/' is absolute; any other is relative
    and takes the place of the segments its route consumed, below [base].
    The targets of this table are one segment long. *)
Definition redirect (base : list string) (target : string) : Matched :=
  match target with
  | String "/"%char rest => RedirectTo true [rest]
  | _ => RedirectTo false (base ++ [target])
  end.

(** [url] with [prefix] taken off, when it starts with it. *)
Fixpoint strip_prefix (prefix url : list string) : option (list string) :=
  match prefix, url with
  | [], rest => Some rest
  | p :: prefix, u :: url =>
      if String.eqb p u then strip_prefix prefix url else None
  | _ :: _, [] => None
  end.

Fixpoint match_children (parent : Route) (cs : list ChildRoute)
    (rest : list string) : option Matched :=
  match cs with
  | [] => None
  | c :: cs =>
      match strip_prefix (child_path c) rest with
      | Some [] =>
          match child_redirectTo c with
          | Some target => Some (redirect (path parent) target)
          | None => Some (Activate (guards parent))
          end
      | _ => match_children parent cs rest
      end
  end.

(** [path: '**'] *)
Definition is_wildcard (p : list string) : bool :=
  match p with
  | [s] => String.eqb s "**"
  | _ => false
  end.

(** The first route of the table that consumes the whole URL; '**' consumes
    anything. *)
Fixpoint match_routes (rs : list Route) (url : list string) : option Matched :=
  match rs with
  | [] => None
  | r :: rs =>
      let here :=
        if is_wildcard (path r) then
          option_map (redirect []) (redirectTo r)
        else
          match strip_prefix (path r) url with
          | Some rest =>
              match children r, rest with
              | [], [] =>
                  match redirectTo r with
                  | Some target => Some (redirect [] target)
                  | None => Some (Activate (guards r))
                  end
              | [], _ :: _ => None
              | cs, _ => match_children r cs rest
              end
          | None => None
          end in
      match here with
      | Some m => Some m
      | None => match_routes rs url
      end
  end.

(** The segments of the single absolute command a guard navigates with
    ('/verify-email'): the text after the leading slash. *)
Definition command_segments (cmds : list string) : list string :=
  match cmds with
  | [String "/"%char rest] => [rest]
  | _ => cmds
  end.

(** The guards of a page in order: the first that denies decides, and its
    navigation is the one that happens. *)
Fixpoint run_guards (gs : list GuardClass) (user : option UserData)
    (state : RouterStateSnapshot) : bool * list Navigation :=
  match gs with
  | [] => (true, [])
  | g :: gs =>
      match canActivate g user state with
      | (true, _) => run_guards gs user state
      | denied => denied
      end
  end.

Section Router.

(** [RouterStateSnapshot.url] is the text of the whole URL the navigation
    goes to, query included.  Writing it out is the router's business (its
    [UrlSerializer], with its escaping rules), not the repository's: what it
    makes of the segments and the query parameters is a parameter. *)
Variable serializeUrl : list string -> list (string * string) -> string.

(** Where a navigation to [url] with the query [params] ends for a fixed
    session snapshot: redirects of the table are followed, each page's
    guards are asked with the URL they guard, and a denial continues with
    the navigation the guard issued.  [None] when [fuel] navigations were not
    enough; otherwise the page reached and the query parameters it was
    reached with. *)
Fixpoint settle (fuel : nat) (user : option UserData)
    (url : list string) (params : list (string * string))
  : option (list string * list (string * string)) :=
  match fuel with
  | O => None
  | S fuel =>
      match match_routes routes url with
      | None => Some (url, params)
      | Some (RedirectTo absolute target) =>
          settle fuel user target (if absolute then [] else params)
      | Some (Activate gs) =>
          match run_guards gs user {| url := serializeUrl url params |} with
          | (true, _) => Some (url, params)
          | (false, nav :: _) =>
              settle fuel user (command_segments (commands nav)) (queryParams nav)
          | (false, []) => Some (url, params)
          end
      end
  end.

End Router.

(** What a route can answer when it is the one that matches. *)
Definition answers (r : Route) : list Matched :=
  Activate (guards r)
  :: match redirectTo r with Some t => [redirect [] t] | None => [] end
  ++ omap (fun c => redirect (path r) <$> child_redirectTo c) (children r).

(** A serializer for URLs whose text needs no escaping: '/a/b?k=v&l=w'. *)
Fixpoint join_segments (segs : list string) : string :=
  match segs with
  | [] => ""
  | [s] => s
  | s :: segs => s +:+ "/" +:+ join_segments segs
  end.

Fixpoint join_query (params : list (string * string)) : string :=
  match params with
  | [] => ""
  | [(k, v)] => k +:+ "=" +:+ v
  | (k, v) :: params => k +:+ "=" +:+ v +:+ "&" +:+ join_query params
  end.

Definition plain_url (segs : list string) (params : list (string * string))
  : string :=
  "/" +:+ join_segments segs
  +:+ match params with [] => "" | _ => "?" +:+ join_query params end.

(** ** More sample data *)

Definition admin_record : UserData :=
  {| uid := "u1"; email := "a@b.com"; displayName := "Ann";
     role := RoleAdmin; createdAt := TimeAt 7;
     lastLoginAt := TimeAt 9; emailVerified := true;
     photoURL := None; provider := Some "email" |}.

Definition offline : JsError :=
  {| err_code := Some "unavailable";
     err_message := Some "Failed to get document because the client is offline." |}.

(** The provider works; the directory rejects reads and accepts writes. *)
Definition unreadable_remote : Remote :=
  {| createUser_answer := fun _ _ _ => inr verified_identity;
     signInWithPassword_answer := fun _ _ _ => inr verified_identity;
     signInWithPopup_answer := fun _ _ _ => inr verified_identity;
     updateProfile_answer := fun _ _ _ => None;
     sendEmailVerification_answer := fun _ _ => None;
     reload_answer := fun _ _ => inr verified_identity;
     signOut_answer := fun _ => None;
     sendPasswordResetEmail_answer := fun _ _ => None;
     firestore_fault := fun _ r =>
       match r with ReqGetDoc _ => Some offline | _ => None end |}.

(** A page on which an administrator's record is in the directory and
    nothing has been published yet. *)
Definition admin_known_State : State :=
  {| svc := new_AuthService; cmp := new_VerifyEmailComponent;
     world := {| auth_currentUser := Some verified_identity;
                 users := {[ "u1" := admin_record ]};
                 timers := ∅; next_timer := 1; navigations := [];
                 console := []; success_message := None;
                 requests := [] |} |}.

(** ** What a step may do to roles and identifiers *)

(** A record found under key [k] after a step is new, filed under its own
    identifier with role user, or continues the record that was under [k],
    with the same identifier and role. *)
Definition record_origin (s : State) (k : string) (d' : UserData) : Prop :=
  (uid d' = k /\ role d' = RoleUser) \/
  exists d, users (world s) !! k = Some d /\ uid d' = uid d /\ role d' = role d.

(** The role of a published session is user, or that of a record of the
    directory, or that of the session before. *)
Definition session_origin (s : State) (u' : UserData) : Prop :=
  role u' = RoleUser \/
  (exists k d, users (world s) !! k = Some d /\ role u' = role d) \/
  (exists u, session s = Some u /\ role u' = role u).

Definition directory_footprint (s s' : State) : Prop :=
  (forall k d', users (world s') !! k = Some d' -> record_origin s k d') /\
  (forall u', session s' = Some u' -> session_origin s u').

(** No record and no session carries role [r]. *)
Definition role_absent (r : Role) (s : State) : Prop :=
  (forall k d, users (world s) !! k = Some d -> role d <> r) /\
  (forall u, session s = Some u -> role u <> r).

(** Every record is filed under its own identifier. *)
Definition filed_by_uid (s : State) : Prop :=
  forall k d, users (world s) !! k = Some d -> uid d = k.

(** A short history: sign up, the listener fires, a verification check, a
    resend, sign out. *)
Definition sample_history : list Event :=
  [ Establish (CallSignUp "a@b.com" "Abc123" "Ann");
    AuthStateChanged (Some sample_identity);
    CheckEmailVerification;
    Resend;
    SignOut ].

(** ** More of [VerifyEmailComponent] *)

Definition checkVerificationNow (remote : Remote) : M unit :=
  (modify (with_cmp (set_loading true)) ;;
   modify (with_cmp (set_error None)) ;;
   try_finally
     (try_catch
        (isVerified <- checkEmailVerification remote ;;
         if isVerified : bool then router_navigate (navigate "/dashboard")
         else modify (with_cmp (set_error (Some
                "Email is not verified yet. Please check your inbox and click the verification link."))))
        (fun error =>
           modify (with_cmp (set_error
             (Some (or_else (err_message (exn_as_error error))
                            "Failed to check verification status"))))))
     (modify (with_cmp (set_loading false))))%js.

(** [VerifyEmailComponent.signOut] *)
Definition VerifyEmailComponent_signOut (remote : Remote) : M unit :=
  try_catch (signOut remote)
            (fun error => console_error "Error signing out:").

Definition clearError : M unit := modify (with_cmp (set_error None)).

(** *** [maskedEmail] *)

(** [s.split(sep)] for a separator of one character: the pieces between the
    separators, at least one. *)
Fixpoint split_on (sep : ascii) (s : string) : list string :=
  match s with
  | EmptyString => [EmptyString]
  | String c rest =>
      if Ascii.eqb c sep then EmptyString :: split_on sep rest
      else match split_on sep rest with
           | p :: ps => String c p :: ps
           | [] => [String c EmptyString]
           end
  end.

(** [s[i]] inside a concatenation: the character, or the text of
    [undefined] past the end. *)
Definition char_at (i : nat) (s : string) : string :=
  match String.get i s with
  | Some c => String c EmptyString
  | None => "undefined"
  end.

(** ['*'.repeat(n)] *)
Fixpoint stars (n : nat) : string :=
  match n with
  | O => EmptyString
  | S n => String "*" (stars n)
  end.

(** The getter [maskedEmail], as a function of [userEmail]. *)
Definition maskedEmail (userEmail : string) : string :=
  if String.eqb userEmail "" then ""
  else
    let parts := split_on "@" userEmail in
    let localPart := nth 0 parts "" in
    let domain := match parts !! 1%nat with
                  | Some d => d
                  | None => "undefined"
                  end in
    if (String.length localPart <=? 2)%nat then userEmail
    else
      let maskedLocal :=
        char_at 0 localPart
        +:+ stars (String.length localPart - 2)
        +:+ char_at (String.length localPart - 1) localPart in
      maskedLocal +:+ "@" +:+ domain.

(** Whether a text contains the character. *)
Fixpoint contains (c : ascii) (s : string) : bool :=
  match s with
  | EmptyString => false
  | String a rest => Ascii.eqb a c || contains c rest
  end.

(** ** The callers: [LoginComponent] and [SignupComponent] *)

(** The fields of [LoginComponent] its handlers use. *)
Record LoginComponent := {
  login_error : option string;
  returnUrl : string
}.

(** What a component reads and changes of its reactive form: the values,
    the [invalid] flag the form library computes from its validators, and
    whether the controls have been marked as touched. *)
Record LoginForm := {
  form_email : string;
  form_password : string;
  form_invalid : bool;
  form_touched : bool
}.

Definition set_login_error (e : option string) (c : LoginComponent)
  : LoginComponent :=
  {| login_error := e; returnUrl := returnUrl c |}.

(** [markFormGroupTouched] *)
Definition markFormGroupTouched (f : LoginForm) : LoginForm :=
  {| form_email := form_email f; form_password := form_password f;
     form_invalid := form_invalid f; form_touched := true |}.

(** [LoginComponent.onSubmit]; the component and the form are passed in and
    handed back. *)
Definition LoginComponent_onSubmit (remote : Remote)
    (c : LoginComponent) (f : LoginForm) : M (LoginComponent * LoginForm) :=
  if form_invalid f then ret (c, markFormGroupTouched f)
  else
    let c := set_login_error None c in
    try_catch
      (signIn remote (form_email f) (form_password f) ;;
       s <- get ;;
       (if isEmailVerified s
        then router_navigate (navigate (returnUrl c))
        else router_navigate (navigate "/verify-email")) ;;
       ret (c, f))%js
      (fun error =>
         ret (set_login_error
                (Some (or_else (err_message (exn_as_error error))
                               "An error occurred during sign in")) c, f)).

(** [LoginComponent.signInWithGoogle] and [LoginComponent.signInWithFacebook] *)
Definition LoginComponent_signInWithGoogle (remote : Remote)
    (c : LoginComponent) : M LoginComponent :=
  let c := set_login_error None c in
  try_catch
    (signInWithGoogle remote ;;
     router_navigate (navigate (returnUrl c)) ;;
     ret c)%js
    (fun error =>
       ret (set_login_error
              (Some (or_else (err_message (exn_as_error error))
                             "An error occurred with Google sign in")) c)).

Definition LoginComponent_signInWithFacebook (remote : Remote)
    (c : LoginComponent) : M LoginComponent :=
  let c := set_login_error None c in
  try_catch
    (signInWithFacebook remote ;;
     router_navigate (navigate (returnUrl c)) ;;
     ret c)%js
    (fun error =>
       ret (set_login_error
              (Some (or_else (err_message (exn_as_error error))
                             "An error occurred with Facebook sign in")) c)).

(** The fields of [SignupComponent] its handlers use, and its form. *)
Record SignupComponent := { signup_error : option string }.

Record SignupForm := {
  signup_displayName : string;
  signup_email : string;
  signup_password : string;
  signup_invalid : bool;
  signup_touched : bool
}.

Definition markSignupFormTouched (f : SignupForm) : SignupForm :=
  {| signup_displayName := signup_displayName f;
     signup_email := signup_email f; signup_password := signup_password f;
     signup_invalid := signup_invalid f; signup_touched := true |}.

(** [SignupComponent.onSubmit] *)
Definition SignupComponent_onSubmit (remote : Remote)
    (c : SignupComponent) (f : SignupForm)
  : M (SignupComponent * SignupForm) :=
  if signup_invalid f then ret (c, markSignupFormTouched f)
  else
    try_catch
      (signUp remote (signup_email f) (signup_password f)
              (signup_displayName f) ;;
       router_navigate (navigate "/verify-email") ;;
       ret ({| signup_error := None |}, f))%js
      (fun error =>
         ret ({| signup_error :=
                   Some (or_else (err_message (exn_as_error error))
                                 "An error occurred during sign up") |}, f)).

(** A login page opened for /vehicles, and its form filled in. *)
Definition sample_login : LoginComponent :=
  {| login_error := Some "old"; returnUrl := "/vehicles" |}.

Definition sample_login_form : LoginForm :=
  {| form_email := "a@b.com"; form_password := "Abc123";
     form_invalid := false; form_touched := false |}.

(** * Properties *)

Local Open Scope list_scope.

(** ** AccessGuard evaluator *)

Lemma provider_is_email_true (u : UserData) :
  provider_is_email u = true <-> provider u = Some "email".
Proof.
  unfold provider_is_email, case_matches.
  destruct (provider u) as [p|]; [|split; discriminate].
  rewrite String.eqb_eq. split; congruence.
Qed.

Lemma provider_is_email_false (u : UserData) :
  provider_is_email u = false <-> provider u <> Some "email".
Proof.
  rewrite <- provider_is_email_true.
  destruct (provider_is_email u); split; congruence.
Qed.

Ltac break_logic :=
  repeat match goal with
  | |- _ /\ _ => split
  | |- _ <-> _ => split
  | |- _ -> _ => intro
  | |- ~ _ => intro
  | H : exists _, _ |- _ => destruct H
  | H : _ /\ _ |- _ => destruct H
  | H : Some _ = Some _ |- _ => injection H as H; subst
  end; try congruence.

(** C4.  The Authenticated guard allows exactly when a session is present and
    (emailVerified is true or the provider is not "email"), and then issues no
    navigation; when it denies it navigates to /verify-email if a session is
    present, unverified and of the email provider, and otherwise (no session)
    to /login with the requested URL as [returnUrl]. *)
Theorem AuthGuard_canActivate_decision
    (user : option UserData) (state : RouterStateSnapshot) :
  (fst (AuthGuard_canActivate user state) = true <->
   exists u, user = Some u /\
             (emailVerified u = true \/ provider u <> Some "email")) /\
  (fst (AuthGuard_canActivate user state) = true ->
   snd (AuthGuard_canActivate user state) = []) /\
  (fst (AuthGuard_canActivate user state) = false ->
   ((exists u, user = Some u /\ emailVerified u = false /\
               provider u = Some "email") /\
    snd (AuthGuard_canActivate user state) = [navigate "/verify-email"])
   \/
   (~ (exists u, user = Some u /\ emailVerified u = false /\
                 provider u = Some "email") /\
    snd (AuthGuard_canActivate user state) =
      [ {| commands := ["/login"];
           queryParams := [("returnUrl", url state)] |} ])).
Proof.
  destruct user as [u|]; simpl.
  - destruct (emailVerified u) eqn:Hv, (provider_is_email u) eqn:Hp; simpl.
    all: pose proof (provider_is_email_true u) as Ht.
    all: pose proof (provider_is_email_false u) as Hf.
    all: rewrite Hp in Ht, Hf; break_logic.
    all: try (exists u; tauto).
    all: try (left; split; [exists u; tauto | reflexivity]).
    match goal with H : _ \/ _ |- _ => destruct H; [congruence | tauto] end.
  - break_logic. right. break_logic.
Qed.

(** C5.  The Guest-only guard allows exactly when no session is present (and
    then issues no navigation); with a session it denies and navigates to
    /verify-email if the user is unverified with provider "email", and to
    /dashboard otherwise. *)
Theorem GuestGuard_canActivate_decision (user : option UserData) :
  (fst (GuestGuard_canActivate user) = true <-> user = None) /\
  (user = None -> snd (GuestGuard_canActivate user) = []) /\
  (forall u, user = Some u ->
     fst (GuestGuard_canActivate user) = false /\
     (emailVerified u = false /\ provider u = Some "email" ->
      snd (GuestGuard_canActivate user) = [navigate "/verify-email"]) /\
     (~ (emailVerified u = false /\ provider u = Some "email") ->
      snd (GuestGuard_canActivate user) = [navigate "/dashboard"])).
Proof.
  destruct user as [u|]; simpl.
  - pose proof (provider_is_email_true u) as Ht.
    destruct (emailVerified u) eqn:Hv, (provider_is_email u) eqn:Hp; simpl.
    all: break_logic.
    all: try (exfalso; tauto).
    all: match goal with H : provider _ = Some "email" |- _ =>
           apply Ht in H; congruence end.
  - break_logic.
Qed.

(** ** ErrorTranslator *)

Lemma or_else_nonempty (v : option string) (d : string) :
  d <> "" -> or_else v d <> "".
Proof.
  intros Hd. destruct v as [s|]; simpl; [|done].
  destruct (String.eqb s "") eqn:E; simpl; [done|].
  by apply String.eqb_neq.
Qed.

Lemma handleAuthError_message_cases (error : JsError) :
  message (handleAuthError error) = generic_message \/
  exists c, err_code error = Some c /\
            (c, message (handleAuthError error)) ∈ enumerated_failures.
Proof.
  destruct error as [[c|] m]; [|by left].
  unfold handleAuthError, enumerated_failures; simpl.
  repeat match goal with
  | |- context [String.eqb c ?l] =>
      destruct (String.eqb_spec c l) as [->|_];
      [right; eexists; split; [reflexivity|]; simpl; set_solver|]
  end.
  by left.
Qed.

(** C8.  The translator is total and its result is well formed (code and
    message are both non-empty strings): every enumerated failure code keeps
    its code and gets its fixed message, a code outside the enumeration gets
    the generic message, and an error without a code gets code "unknown"
    (and the generic message). *)
Theorem handleAuthError_translation (error : JsError) :
  code (handleAuthError error) <> "" /\
  message (handleAuthError error) <> "" /\
  (forall c m, (c, m) ∈ enumerated_failures ->
     err_code error = Some c ->
     handleAuthError error = {| code := c; message := m |}) /\
  ((forall c, err_code error = Some c -> c ∉ enumerated_failures.*1) ->
   message (handleAuthError error) = generic_message) /\
  (err_code error = None ->
   handleAuthError error = {| code := "unknown"; message := generic_message |}) /\
  (forall c, err_code error = Some c -> c <> "" ->
     code (handleAuthError error) = c).
Proof.
  split; [|split; [|split; [|split; [|split]]]].
  - by apply or_else_nonempty.
  - destruct (handleAuthError_message_cases error) as [->|(c & _ & Hin)];
      [done|].
    unfold enumerated_failures in Hin.
    generalize dependent (message (handleAuthError error)). intros m Hin.
    repeat (apply elem_of_cons in Hin as [[= _ ->]|Hin]; [done|]).
    by apply elem_of_nil in Hin.
  - intros c m Hin Hc. destruct error as [c' em]; simpl in Hc; subst c'.
    unfold enumerated_failures in Hin.
    repeat (apply elem_of_cons in Hin as [[= -> ->]|Hin]; [reflexivity|]).
    by apply elem_of_nil in Hin.
  - intros Hout.
    destruct (handleAuthError_message_cases error) as [->|(c & Hc & Hin)];
      [done|].
    exfalso. apply (Hout c Hc). apply list_elem_of_fmap.
    by exists (c, message (handleAuthError error)).
  - destruct error as [c em]; simpl. by intros ->.
  - destruct error as [c' em]; simpl. intros c -> Hne.
    unfold handleAuthError, or_else; simpl.
    apply String.eqb_neq in Hne. by rewrite Hne.
Qed.

(** ** SessionManager *)

(** The runs below never look inside a translated error or a defaulted
    string. *)
Opaque handleAuthError or_else.

(** Unfold one layer of the program down to the state-passing functions. *)
Ltac unfold_sdk :=
  unfold createUserWithEmailAndPassword, signInWithEmailAndPassword,
    signInWithPopup, updateProfile, auth_sendEmailVerification, reload,
    auth_signOut, sendPasswordResetEmail, getDoc, setDoc, updateDoc,
    request, resolve_identity, resolve_unit in *.

Ltac unfold_runtime :=
  unfold setInterval, setTimeout, schedule, unschedule, clearInterval,
    router_navigate, console_error, currentUserSubject_next,
    loadingSubject_next in *.

Ltac unfold_monad :=
  unfold run, try_finally, try_catch, rethrow_translated, bind, ret, throw,
    get, modify in *.

(** C9.  Without a provider-side current user, [checkEmailVerification]
    returns false and leaves the whole state as it was: no request is made
    (hence no directory write) and the published session is untouched. *)
Theorem checkEmailVerification_without_user (remote : Remote) (s : State) :
  auth_currentUser (world s) = None ->
  run (checkEmailVerification remote) s = (Returned false, s).
Proof.
  intros Hnone. unfold checkEmailVerification. unfold_monad.
  by rewrite Hnone.
Qed.

Lemma checkEmailVerification_without_user_witness :
  run (checkEmailVerification obliging_remote) new_State
    = (Returned false, new_State).
Proof.
  apply (checkEmailVerification_without_user obliging_remote new_State).
  reflexivity.
Defined.

Lemma set_emailVerified_twice (b : bool) (u : UserData) :
  set_emailVerified b (set_emailVerified b u) = set_emailVerified b u.
Proof. reflexivity. Qed.

(** One run of [checkEmailVerification] when the refresh reports the email
    verified and the directory accepts the update. *)
Lemma checkEmailVerification_run_verified
    (remote : Remote) (s : State) (user fresh : FirebaseUser) (d : UserData) :
  auth_currentUser (world s) = Some user ->
  reload_answer remote (requests (world s)) user = inr fresh ->
  user_emailVerified fresh = true ->
  users (world s) !! user_uid user = Some d ->
  firestore_fault remote (requests (world s) ++ [ReqReload (user_uid user)])
    (ReqUpdateDoc (user_uid user) (PatchEmailVerified true)) = None ->
  exists s1,
    run (checkEmailVerification remote) s = (Returned true, s1) /\
    auth_currentUser (world s1) = Some (refreshed user fresh) /\
    requests (world s1) =
      requests (world s) ++
        [ReqReload (user_uid user);
         ReqUpdateDoc (user_uid user) (PatchEmailVerified true)] /\
    users (world s1) =
      <[user_uid user := set_emailVerified true d]> (users (world s)) /\
    value (currentUserSubject (svc s1)) =
      option_map (set_emailVerified true) (value (currentUserSubject (svc s))).
Proof.
  intros Hu Hr Hv Hd Hf.
  unfold checkEmailVerification. unfold_sdk. unfold_runtime. unfold_monad.
  simpl. rewrite Hu. simpl. rewrite Hr. simpl. rewrite Hv. simpl.
  rewrite Hf. simpl. rewrite Hd. simpl.
  destruct (value (currentUserSubject (svc s))) as [cu|] eqn:Hcu.
  all: eexists; split; [reflexivity|]; simpl.
  all: rewrite <- app_assoc; simpl; by rewrite ?Hcu.
Qed.

(** One run of [checkEmailVerification] when the refresh reports the email
    verified and the update is rejected, by the store or because there is no
    document to update. *)
Lemma checkEmailVerification_run_rejected
    (remote : Remote) (s : State) (user fresh : FirebaseUser) (e : JsError) :
  auth_currentUser (world s) = Some user ->
  reload_answer remote (requests (world s)) user = inr fresh ->
  user_emailVerified fresh = true ->
  let write := ReqUpdateDoc (user_uid user) (PatchEmailVerified true) in
  let fault :=
    firestore_fault remote (requests (world s) ++ [ReqReload (user_uid user)])
      write in
  fault = Some e \/
  (fault = None /\ users (world s) !! user_uid user = None /\ e = not_found) ->
  exists s1,
    run (checkEmailVerification remote) s = (Thrown (ExnRaw e), s1) /\
    requests (world s1) =
      requests (world s) ++ [ReqReload (user_uid user); write] /\
    users (world s1) = users (world s) /\
    currentUserSubject (svc s1) = currentUserSubject (svc s).
Proof.
  intros Hu Hr Hv write fault Hcase. subst write fault.
  unfold checkEmailVerification. unfold_sdk. unfold_runtime. unfold_monad.
  simpl. rewrite Hu. simpl. rewrite Hr. simpl. rewrite Hv. simpl.
  destruct Hcase as [Hf|(Hf & Hd & ->)]; rewrite Hf; simpl.
  - eexists. split; [reflexivity|]. simpl. by rewrite <- app_assoc.
  - rewrite Hd. simpl.
    eexists. split; [reflexivity|]. simpl. by rewrite <- app_assoc.
Qed.

(** C3 (as amended).  With a provider-side user, [checkEmailVerification]
    first asks the provider to refresh the identity.
    - If the refresh is rejected with [e], the call throws [e] untranslated,
      and neither the directory nor the session subject is touched.
    - If the provider now reports the email verified, the call asks the
      directory to set [emailVerified = true] on the user's record.
      - When the store rejects that request with [e], or there is no record
        for the identifier ([not-found]), the call throws that error
        untranslated; the directory and the session subject are what they
        were, and nothing is returned.
      - When the record exists and the store accepts, the record gets
        [emailVerified = true] and no other record changes, the published
        session (when there is one) gets [emailVerified = true], and the
        call returns true.  A second call right after, with the provider
        still reporting verified and the store accepting, returns true again
        and leaves the directory and the session value as the first call
        left them.
    - If the provider does not report the email verified, the call returns
      false, makes no directory request and leaves directory and session
      alone. *)
Theorem checkEmailVerification_verified
    (remote : Remote) (s : State) (user : FirebaseUser) :
  auth_currentUser (world s) = Some user ->
  let id := user_uid user in
  let write := ReqUpdateDoc id (PatchEmailVerified true) in
  let throws := fun (e : JsError) (asked : list Request) =>
    exists s1,
      run (checkEmailVerification remote) s = (Thrown (ExnRaw e), s1) /\
      requests (world s1) = requests (world s) ++ asked /\
      users (world s1) = users (world s) /\
      currentUserSubject (svc s1) = currentUserSubject (svc s) in
  match reload_answer remote (requests (world s)) user with
  | inl e => throws e [ReqReload id]
  | inr fresh =>
      if user_emailVerified fresh then
        match firestore_fault remote (requests (world s) ++ [ReqReload id]) write,
              users (world s) !! id with
        | Some e, _ => throws e [ReqReload id; write]
        | None, None => throws not_found [ReqReload id; write]
        | None, Some d =>
            exists s1,
              run (checkEmailVerification remote) s = (Returned true, s1) /\
              requests (world s1) = requests (world s) ++ [ReqReload id; write] /\
              users (world s1) !! id = Some (set_emailVerified true d) /\
              (forall other, other <> id ->
                 users (world s1) !! other = users (world s) !! other) /\
              value (currentUserSubject (svc s1)) =
                option_map (set_emailVerified true)
                           (value (currentUserSubject (svc s))) /\
              forall fresh2,
                reload_answer remote (requests (world s1)) (refreshed user fresh)
                  = inr fresh2 ->
                user_emailVerified fresh2 = true ->
                firestore_fault remote (requests (world s1) ++ [ReqReload id])
                  write = None ->
                exists s2,
                  run (checkEmailVerification remote) s1 = (Returned true, s2) /\
                  users (world s2) = users (world s1) /\
                  value (currentUserSubject (svc s2)) =
                    value (currentUserSubject (svc s1))
        end
      else
        exists s1,
          run (checkEmailVerification remote) s = (Returned false, s1) /\
          requests (world s1) = requests (world s) ++ [ReqReload id] /\
          users (world s1) = users (world s) /\
          currentUserSubject (svc s1) = currentUserSubject (svc s)
  end.
Proof.
  intros Hu id write throws.
  destruct (reload_answer remote (requests (world s)) user) as [e|fresh] eqn:Hr.
  { subst throws. unfold checkEmailVerification. unfold_sdk. unfold_monad.
    simpl. rewrite Hu. simpl. rewrite Hr. simpl.
    eexists. split; [reflexivity|]. by simpl. }
  destruct (user_emailVerified fresh) eqn:Hv.
  - destruct (firestore_fault remote (requests (world s) ++ [ReqReload id]) write)
      as [e|] eqn:Hf.
    { apply (checkEmailVerification_run_rejected remote s user fresh e);
        try done. by left. }
    destruct (users (world s) !! id) as [d|] eqn:Hd.
    2:{ apply (checkEmailVerification_run_rejected remote s user fresh not_found);
          try done. by right. }
    destruct (checkEmailVerification_run_verified remote s user fresh d)
      as (s1 & Hrun & Hu1 & Hq1 & Hd1 & Hc1); try done.
    exists s1. split; [done|]. split; [done|].
    split; [by rewrite Hd1, lookup_insert_eq|].
    split; [by intros other Hne; rewrite Hd1, lookup_insert_ne|].
    split; [done|].
    intros fresh2 Hr2 Hv2 Hf2.
    destruct (checkEmailVerification_run_verified remote s1
                (refreshed user fresh) fresh2 (set_emailVerified true d))
      as (s2 & Hrun2 & _ & _ & Hd2 & Hc2); try done.
    { simpl. by rewrite Hd1, lookup_insert_eq. }
    exists s2. split; [done|]. split.
    + rewrite Hd2, Hd1. simpl. by rewrite insert_insert_eq.
    + rewrite Hc2, Hc1. by destruct (value (currentUserSubject (svc s))).
  - unfold checkEmailVerification. unfold_sdk. unfold_monad.
    simpl. rewrite Hu. simpl. rewrite Hr. simpl. rewrite Hv. simpl.
    eexists. split; [reflexivity|]. by simpl.
Qed.

Lemma checkEmailVerification_verified_witness :
  exists s1,
    run (checkEmailVerification verified_remote) signed_in_State
      = (Returned true, s1) /\
    users (world s1) !! "u1" = Some (set_emailVerified true sample_user) /\
    session s1 = Some (set_emailVerified true sample_user).
Proof.
  pose proof (checkEmailVerification_verified verified_remote signed_in_State
                sample_identity eq_refl) as H.
  cbv zeta in H.
  change (reload_answer verified_remote (requests (world signed_in_State))
            sample_identity) with (inr verified_identity : JsError + FirebaseUser) in H.
  cbv iota in H.
  change (user_emailVerified verified_identity) with true in H.
  cbv iota in H.
  change (firestore_fault verified_remote _ _) with (@None JsError) in H.
  replace (users (world signed_in_State) !! user_uid sample_identity)
    with (Some sample_user) in H by (by vm_compute).
  destruct H as (s1 & Hrun & _ & Hd & _ & Hc & _).
  exists s1. split; [exact Hrun|]. split; [exact Hd|exact Hc].
Defined.

(** C3 as stated fails where the directory does not take the update.  After
    a sign-in that found no directory record (which signIn tolerates) the
    provider reports the user verified, yet [checkEmailVerification] throws
    [not-found]: it does not return true, writes nothing and the session stays
    null.  With a record and a published session but a directory that rejects
    requests, it throws as well and the published session stays unverified. *)
Lemma checkEmailVerification_throws_on_rejected_update :
  (exists s0 s1,
     run (signIn verified_remote "a@b.com" "Abc123") new_State
       = (Returned tt, s0) /\
     auth_currentUser (world s0) = Some verified_identity /\
     reload_answer verified_remote (requests (world s0)) verified_identity
       = inr verified_identity /\
     user_emailVerified verified_identity = true /\
     run (checkEmailVerification verified_remote) s0
       = (Thrown (ExnRaw not_found), s1) /\
     users (world s1) = ∅ /\
     session s1 = None) /\
  (exists s1,
     reload_answer verified_directory_down_remote
       (requests (world signed_in_State)) sample_identity
       = inr verified_identity /\
     run (checkEmailVerification verified_directory_down_remote) signed_in_State
       = (Thrown (ExnRaw offline_directory), s1) /\
     users (world s1) !! "u1" = Some sample_user /\
     session s1 = Some sample_user /\
     emailVerified sample_user = false).
Proof.
  split.
  - do 2 eexists. split; [vm_compute; reflexivity|].
    split; [reflexivity|]. split; [reflexivity|]. split; [reflexivity|].
    split; [vm_compute; reflexivity|]. by vm_compute.
  - eexists. split; [reflexivity|].
    split; [vm_compute; reflexivity|]. by vm_compute.
Qed.

(** Symbolic execution: simplify, then split on the next answer of the
    remote side, directory lookup or session value the run depends on. *)
Ltac split_on_scrutinee :=
  match goal with
  | |- context [match ?x with _ => _ end] =>
      lazymatch x with
      | context [match _ with _ => _ end] => fail
      | _ => destruct x eqn:?
      end
  end.

Ltac js_exec := repeat (simpl; try split_on_scrutinee).

(** What a returning signIn has done, by what the directory answered to the
    read of the user's record. *)
Lemma signIn_outcome (remote : Remote) (email password : string) (s : State) :
  match run (signIn remote email password) s with
  | (Returned _, s') =>
      value (loadingSubject (svc s')) = false /\
      exists user,
        signInWithPassword_answer remote (requests (world s)) email password
          = inr user /\
        auth_currentUser (world s') = Some user /\
        let asked :=
          requests (world s) ++
            [ReqSignInWithPassword email password;
             ReqUpdateDoc (user_uid user) (PatchLastLoginAt ServerTimestamp)] in
        requests (world s') = asked ++ [ReqGetDoc (user_uid user)] /\
        match firestore_fault remote asked (ReqGetDoc (user_uid user)),
              users (world s') !! user_uid user with
        | None, Some d =>
            session s' =
              Some (set_emailVerified (user_emailVerified user)
                      (set_lastLoginAt ServerTimestamp d))
        | None, None =>
            currentUserSubject (svc s') = currentUserSubject (svc s)
        | Some _, _ =>
            currentUserSubject (svc s') = currentUserSubject (svc s) /\
            last (console (world s')) = Some "Error getting user data:"
        end
  | (Thrown x, s') =>
      value (loadingSubject (svc s')) = false /\
      (exists e, x = ExnAuth (handleAuthError e)) /\
      currentUserSubject (svc s') = currentUserSubject (svc s)
  end.
Proof.
  unfold signIn, getUserData, updateLastLogin, saveUserData, session.
  unfold_sdk. unfold_runtime. unfold_monad.
  simpl.
  destruct (signInWithPassword_answer remote _ email password)
    as [e|user] eqn:Hans; simpl; [eauto|].
  set (asked := (requests (world s) ++ [ReqSignInWithPassword email password])
                  ++ [ReqUpdateDoc (user_uid user) (PatchLastLoginAt ServerTimestamp)]).
  assert (asked = requests (world s) ++
            [ReqSignInWithPassword email password;
             ReqUpdateDoc (user_uid user) (PatchLastLoginAt ServerTimestamp)])
    as Hasked by (subst asked; by rewrite <- app_assoc).
  destruct (firestore_fault remote
              (requests (world s) ++ [ReqSignInWithPassword email password])
              (ReqUpdateDoc (user_uid user) (PatchLastLoginAt ServerTimestamp)))
    as [e1|] eqn:Hf1; simpl.
  - fold asked.
    destruct (firestore_fault remote asked (ReqGetDoc (user_uid user)))
      as [e2|] eqn:Hf2; simpl.
    + split; [done|]. exists user. split; [done|]. split; [done|].
      rewrite <- Hasked. split; [done|]. rewrite Hf2.
      split; [done|]. by rewrite last_snoc.
    + destruct (users (world s) !! user_uid user) as [d|] eqn:Hd; simpl.
      all: split; [done|]; exists user; split; [done|]; split; [done|].
      all: rewrite <- Hasked; split; [done|]; by rewrite Hf2, Hd.
  - destruct (users (world s) !! user_uid user) as [d|] eqn:Hd; simpl.
    + fold asked.
      destruct (firestore_fault remote asked (ReqGetDoc (user_uid user)))
        as [e2|] eqn:Hf2; simpl.
      * split; [done|]. exists user. split; [done|]. split; [done|].
        rewrite <- Hasked. split; [done|]. rewrite Hf2.
        split; [done|]. by rewrite last_snoc.
      * rewrite lookup_insert_eq. simpl.
        split; [done|]. exists user. split; [done|]. split; [done|].
        rewrite <- Hasked. split; [done|].
        by rewrite Hf2, lookup_insert_eq.
    + fold asked.
      destruct (firestore_fault remote asked (ReqGetDoc (user_uid user)))
        as [e2|] eqn:Hf2; simpl.
      * split; [done|]. exists user. split; [done|]. split; [done|].
        rewrite <- Hasked. split; [done|]. rewrite Hf2.
        split; [done|]. by rewrite last_snoc.
      * rewrite Hd. simpl.
        split; [done|]. exists user. split; [done|]. split; [done|].
        rewrite <- Hasked. split; [done|]. by rewrite Hf2, Hd.
Qed.

Lemma signUp_outcome (remote : Remote) (email password displayName : string)
    (s : State) :
  match run (signUp remote email password displayName) s with
  | (Returned _, s') =>
      value (loadingSubject (svc s')) = false /\ is_Some (session s')
  | (Thrown x, s') =>
      value (loadingSubject (svc s')) = false /\
      (exists e, x = ExnAuth (handleAuthError e)) /\
      currentUserSubject (svc s') = currentUserSubject (svc s)
  end.
Proof.
  unfold signUp, getUserData, updateLastLogin, saveUserData, session.
  unfold_sdk. unfold_runtime. unfold_monad.
  js_exec; eauto.
Qed.

Lemma signInWithSocialProvider_outcome (remote : Remote)
    (providerId : string) (scopes : list string) (tag : string) (s : State) :
  match run (signInWithSocialProvider remote providerId scopes tag) s with
  | (Returned _, s') =>
      value (loadingSubject (svc s')) = false /\ is_Some (session s')
  | (Thrown x, s') =>
      value (loadingSubject (svc s')) = false /\
      (exists e, x = ExnAuth (handleAuthError e)) /\
      currentUserSubject (svc s') = currentUserSubject (svc s)
  end.
Proof.
  unfold signInWithSocialProvider, getUserData, updateLastLogin, saveUserData,
    session.
  unfold_sdk. unfold_runtime. unfold_monad.
  js_exec; eauto.
Qed.

(** C2 (as amended).  Every call of signUp, signIn, signInWithGoogle or
    signInWithFacebook terminates with loading false.  If it throws, the
    thrown value is a translated AuthError and the session subject is
    untouched.  If signUp or a social sign-in returns, the session is
    non-null.  If signIn returns, the provider accepted the credentials for
    some [user], and what it did to the session is decided by the read of
    that user's directory record, the last request of the call:
    - a record [d] was read: the session is [d] with [lastLoginAt] set to the
      server timestamp and [emailVerified] to the provider's flag, hence
      non-null;
    - there is no record: the session subject (value and emissions) is what
      it was before the call;
    - the read was rejected: it was logged, and the session subject is what
      it was before the call. *)
Theorem session_flows_outcome (remote : Remote) (f : Flow) (s : State) :
  exists r s',
    run (call remote f) s = (r, s') /\
    value (loadingSubject (svc s')) = false /\
    match r with
    | Returned _ =>
        match f with
        | CallSignIn email password =>
            exists user,
              signInWithPassword_answer remote (requests (world s))
                email password = inr user /\
              auth_currentUser (world s') = Some user /\
              let asked :=
                requests (world s) ++
                  [ReqSignInWithPassword email password;
                   ReqUpdateDoc (user_uid user)
                     (PatchLastLoginAt ServerTimestamp)] in
              requests (world s') = asked ++ [ReqGetDoc (user_uid user)] /\
              match firestore_fault remote asked (ReqGetDoc (user_uid user)),
                    users (world s') !! user_uid user with
              | None, Some d =>
                  session s' =
                    Some (set_emailVerified (user_emailVerified user)
                            (set_lastLoginAt ServerTimestamp d))
              | None, None =>
                  currentUserSubject (svc s') = currentUserSubject (svc s)
              | Some _, _ =>
                  currentUserSubject (svc s') = currentUserSubject (svc s) /\
                  last (console (world s')) = Some "Error getting user data:"
              end
        | _ => is_Some (session s')
        end
    | Thrown x =>
        (exists e, x = ExnAuth (handleAuthError e)) /\
        currentUserSubject (svc s') = currentUserSubject (svc s)
    end.
Proof.
  destruct f as [email password displayName|email password| |]; simpl.
  - pose proof (signUp_outcome remote email password displayName s) as H.
    destruct (run _ s) as [[[]|x] s']; do 2 eexists; (split; [reflexivity|tauto]).
  - pose proof (signIn_outcome remote email password s) as H.
    destruct (run _ s) as [[[]|x] s']; do 2 eexists;
      (split; [reflexivity|exact H]).
  - pose proof (signInWithSocialProvider_outcome remote
                  "google.com" ["email"; "profile"] "google" s) as H.
    unfold signInWithGoogle.
    destruct (run _ s) as [[[]|x] s']; do 2 eexists; (split; [reflexivity|tauto]).
  - pose proof (signInWithSocialProvider_outcome remote
                  "facebook.com" ["email"] "facebook" s) as H.
    unfold signInWithFacebook.
    destruct (run _ s) as [[[]|x] s']; do 2 eexists; (split; [reflexivity|tauto]).
Qed.

(** C2 as stated fails for signIn: credentials are accepted, the directory
    has no record for the identifier, and the call returns with the session
    still null.  The same happens when the directory cannot be reached, also
    if the auth-state listener has run before the call: its attempt to save a
    synthesized record is rejected, so it publishes nothing either. *)
Lemma signIn_returns_with_null_session :
  (exists s',
     run (signIn obliging_remote "a@b.com" "Abc123") new_State
       = (Returned tt, s') /\
     session new_State = None /\
     session s' = None /\
     value (loadingSubject (svc s')) = false) /\
  (exists s0 s',
     after directory_down_remote [AuthStateChanged (Some sample_identity)]
       new_State = s0 /\
     session s0 = None /\
     run (signIn directory_down_remote "a@b.com" "Abc123") s0
       = (Returned tt, s') /\
     session s' = None /\
     value (loadingSubject (svc s')) = false).
Proof.
  split.
  - eexists. split; [vm_compute; reflexivity|]. by vm_compute.
  - do 2 eexists. split; [reflexivity|]. split; [by vm_compute|].
    split; [vm_compute; reflexivity|]. by vm_compute.
Qed.

(** C6.  When the provider accepts the credentials and the directory holds no
    record for the identifier, signIn returns normally and does not publish:
    the session subject (value and emissions) is what it was.  When the
    provider rejects the credentials with [e], signIn throws
    [handleAuthError e]. *)
Theorem signIn_tolerates_missing_record
    (remote : Remote) (email password : string) (s : State) :
  match signInWithPassword_answer remote (requests (world s)) email password with
  | inr user =>
      users (world s) !! user_uid user = None ->
      exists s',
        run (signIn remote email password) s = (Returned tt, s') /\
        currentUserSubject (svc s') = currentUserSubject (svc s) /\
        value (loadingSubject (svc s')) = false
  | inl e =>
      exists s',
        run (signIn remote email password) s
          = (Thrown (ExnAuth (handleAuthError e)), s') /\
        currentUserSubject (svc s') = currentUserSubject (svc s) /\
        value (loadingSubject (svc s')) = false
  end.
Proof.
  unfold signIn, getUserData, updateLastLogin, saveUserData.
  unfold_sdk. unfold_runtime. unfold_monad. simpl.
  destruct (signInWithPassword_answer _ _ _ _) as [e|user]; simpl.
  - eexists. split; [reflexivity|]. by simpl.
  - intros Hnone. js_exec; rewrite ?Hnone; simpl.
    all: try congruence.
    all: eexists; (split; [reflexivity|]); by simpl.
Qed.

Lemma signIn_tolerates_missing_record_witness :
  exists s',
    run (signIn obliging_remote "a@b.com" "Abc123") new_State
      = (Returned tt, s') /\
    currentUserSubject (svc s') = currentUserSubject (svc new_State) /\
    value (loadingSubject (svc s')) = false.
Proof.
  apply (signIn_tolerates_missing_record obliging_remote "a@b.com" "Abc123"
           new_State).
  reflexivity.
Defined.

Lemma stopEmailVerificationCheck_run (s : State) :
  exists s0,
    run stopEmailVerificationCheck s = (Returned tt, s0) /\
    requests (world s0) = requests (world s) /\
    currentUserSubject (svc s0) = currentUserSubject (svc s) /\
    truthy_handle (emailVerificationCheckInterval (svc s0)) = false /\
    (forall id,
       emailVerificationCheckInterval (svc s) = HTimer id -> id <> 0 ->
       timers (world s0) = delete id (timers (world s)) /\
       emailVerificationCheckInterval (svc s0) = HNull).
Proof.
  unfold stopEmailVerificationCheck. unfold_runtime. unfold_monad. simpl.
  destruct (emailVerificationCheckInterval (svc s)) as [| |n] eqn:Hh; simpl.
  1,2: eexists; split; [reflexivity|]; rewrite Hh; by simpl.
  destruct (Nat.eqb_spec n 0) as [->|Hne]; simpl.
  - eexists; split; [reflexivity|]. rewrite Hh. simpl.
    do 3 (split; [done|]). by intros id [= <-].
  - eexists; split; [reflexivity|]. simpl.
    do 3 (split; [done|]). by intros id [= <-].
Qed.

(** C10.  [signOut] first stops the verification check: from the state [s0]
    that [stopEmailVerificationCheck] leaves (held timer cleared, handle no
    longer a timer, no request made yet) the provider is called.  If the
    provider call fails with [e], [signOut] throws [handleAuthError e], the
    session subject is untouched and the timers stay as in [s0]; if it
    succeeds, [signOut] returns with the session set to null. *)
Theorem signOut_outcome (remote : Remote) (s : State) :
  exists s0,
    run stopEmailVerificationCheck s = (Returned tt, s0) /\
    requests (world s0) = requests (world s) /\
    truthy_handle (emailVerificationCheckInterval (svc s0)) = false /\
    (forall id,
       emailVerificationCheckInterval (svc s) = HTimer id -> id <> 0 ->
       timers (world s0) !! id = None /\
       emailVerificationCheckInterval (svc s0) = HNull) /\
    exists s',
      requests (world s') = requests (world s) ++ [ReqSignOut] /\
      timers (world s') = timers (world s0) /\
      emailVerificationCheckInterval (svc s') =
        emailVerificationCheckInterval (svc s0) /\
      match signOut_answer remote (requests (world s)) with
      | Some e =>
          run (signOut remote) s = (Thrown (ExnAuth (handleAuthError e)), s') /\
          currentUserSubject (svc s') = currentUserSubject (svc s)
      | None =>
          run (signOut remote) s = (Returned tt, s') /\
          session s' = None
      end.
Proof.
  destruct (stopEmailVerificationCheck_run s)
    as (s0 & Hrun & Hreq & Hcur & Hfalsy & Hclear).
  exists s0. split; [done|]. split; [done|]. split; [done|]. split.
  { intros id Hh Hne. destruct (Hclear id Hh Hne) as [-> ->].
    by rewrite lookup_delete_eq. }
  unfold signOut, session. unfold_sdk. unfold_monad.
  rewrite Hrun. unfold_runtime. unfold_monad. simpl. rewrite Hreq.
  destruct (signOut_answer remote (requests (world s))) as [e|]; simpl.
  all: eexists; split; [|split; [|split; [|split; [reflexivity|]]]]; simpl.
  all: try done.
  all: by rewrite Hreq.
Qed.

Lemma signOut_outcome_witness :
  emailVerificationCheckInterval (svc polling_State) = HTimer 1 /\
  timers (world polling_State) !! 1 = Some verification_check_timer /\
  exists s',
    run (signOut unreachable_remote) polling_State
      = (Thrown (ExnAuth (handleAuthError network_failure)), s') /\
    session s' = Some sample_user /\
    timers (world s') !! 1 = None /\
    emailVerificationCheckInterval (svc s') = HNull.
Proof.
  split; [reflexivity|]. split; [reflexivity|].
  destruct (signOut_outcome unreachable_remote polling_State)
    as (s0 & _ & _ & _ & Hclear & s' & _ & Ht & Hh & Hrun).
  destruct (Hclear 1) as [Ht0 Hh0]; [reflexivity|lia|].
  change (run (signOut unreachable_remote) polling_State
            = (Thrown (ExnAuth (handleAuthError network_failure)), s') /\
          currentUserSubject (svc s') = currentUserSubject (svc polling_State))
    in Hrun.
  destruct Hrun as [Hrun Hcur].
  exists s'. split; [exact Hrun|]. split.
  - unfold session. rewrite Hcur. reflexivity.
  - split; [by rewrite Ht|by rewrite Hh].
Defined.

(** ** VerificationPoller: the verification-check timer *)

Lemma startEmailVerificationCheck_run (s : State) :
  ids_handed_out (world s) ->
  exists s1,
    run startEmailVerificationCheck s = (Returned tt, s1) /\
    emailVerificationCheckInterval (svc s1) = HTimer (next_timer (world s)) /\
    next_timer (world s1) = S (next_timer (world s)) /\
    timers (world s1) =
      <[next_timer (world s) := verification_check_timer]> (timers (world s)) /\
    size (timers (world s1)) = S (size (timers (world s))) /\
    ids_handed_out (world s1).
Proof.
  intros Hids.
  assert (timers (world s) !! next_timer (world s) = None) as Hfresh.
  { destruct (timers (world s) !! next_timer (world s)) eqn:E; [|done].
    assert (next_timer (world s) < next_timer (world s)); [|lia].
    apply Hids. by rewrite E. }
  unfold startEmailVerificationCheck. unfold_runtime. unfold_monad. simpl.
  eexists. split; [reflexivity|]. simpl.
  do 3 (split; [done|]). split.
  - by rewrite map_size_insert_None.
  - intros id [t Ht]. simpl in *.
    destruct (decide (next_timer (world s) = id)) as [<-|Hne]; [lia|].
    rewrite lookup_insert_ne in Ht by done.
    assert (id < next_timer (world s)); [|lia]. apply Hids. by rewrite Ht.
Qed.

(** C1 (as amended).  [startEmailVerificationCheck] has no guard: every call
    schedules one more periodic check (3000 ms) and stores its id, replacing
    the id held before.  One call adds exactly one timer, so from a state
    without timers exactly one is active; a second call right after adds a
    second timer, both stay scheduled, and the instance holds the second
    only, so [stopEmailVerificationCheck] clears that one and the first
    keeps running. *)
Theorem startEmailVerificationCheck_twice (s : State) :
  ids_handed_out (world s) ->
  0 < next_timer (world s) ->
  let n := next_timer (world s) in
  exists s1 s2 s3,
    run startEmailVerificationCheck s = (Returned tt, s1) /\
    run startEmailVerificationCheck s1 = (Returned tt, s2) /\
    run stopEmailVerificationCheck s2 = (Returned tt, s3) /\
    emailVerificationCheckInterval (svc s1) = HTimer n /\
    timers (world s1) = <[n := verification_check_timer]> (timers (world s)) /\
    size (timers (world s1)) = S (size (timers (world s))) /\
    emailVerificationCheckInterval (svc s2) = HTimer (S n) /\
    timers (world s2) !! n = Some verification_check_timer /\
    timers (world s2) !! S n = Some verification_check_timer /\
    size (timers (world s2)) = S (S (size (timers (world s)))) /\
    emailVerificationCheckInterval (svc s3) = HNull /\
    timers (world s3) !! n = Some verification_check_timer /\
    timers (world s3) !! S n = None.
Proof.
  intros Hids Hpos n.
  destruct (startEmailVerificationCheck_run s Hids)
    as (s1 & Hrun1 & Hh1 & Hn1 & Ht1 & Hsz1 & Hids1).
  destruct (startEmailVerificationCheck_run s1 Hids1)
    as (s2 & Hrun2 & Hh2 & Hn2 & Ht2 & Hsz2 & Hids2).
  destruct (stopEmailVerificationCheck_run s2)
    as (s3 & Hrun3 & _ & _ & _ & Hclear).
  rewrite Hn1 in Hh2, Ht2. fold n in Hh1, Ht1, Hh2, Ht2.
  destruct (Hclear (S n) Hh2) as [Ht3 Hh3]; [lia|].
  exists s1, s2, s3.
  do 6 (split; [done|]). split; [done|].
  split. { rewrite Ht2, Ht1, lookup_insert_ne by lia. apply lookup_insert_eq. }
  split. { rewrite Ht2. apply lookup_insert_eq. }
  split. { by rewrite Hsz2, Hsz1. }
  split; [done|].
  split.
  - rewrite Ht3, lookup_delete_ne by lia.
    rewrite Ht2, Ht1, lookup_insert_ne by lia. apply lookup_insert_eq.
  - rewrite Ht3. apply lookup_delete_eq.
Qed.

Lemma startEmailVerificationCheck_twice_witness :
  exists s1 s2 s3,
    run startEmailVerificationCheck new_State = (Returned tt, s1) /\
    run startEmailVerificationCheck s1 = (Returned tt, s2) /\
    run stopEmailVerificationCheck s2 = (Returned tt, s3) /\
    emailVerificationCheckInterval (svc s1) = HTimer 1 /\
    timers (world s1) = <[1 := verification_check_timer]> ∅ /\
    size (timers (world s1)) = 1 /\
    emailVerificationCheckInterval (svc s2) = HTimer 2 /\
    timers (world s2) !! 1 = Some verification_check_timer /\
    timers (world s2) !! 2 = Some verification_check_timer /\
    size (timers (world s2)) = 2 /\
    emailVerificationCheckInterval (svc s3) = HNull /\
    timers (world s3) !! 1 = Some verification_check_timer /\
    timers (world s3) !! 2 = None.
Proof.
  apply (startEmailVerificationCheck_twice new_State).
  - intros id [t Ht]. simpl in Ht. by rewrite lookup_empty in Ht.
  - simpl. lia.
Defined.

(** C1 as stated fails: on a freshly loaded page, start() followed at once by
    a second start() leaves two scheduled verification checks, not one. *)
Lemma second_start_is_not_a_noop :
  exists s1 s2,
    run startEmailVerificationCheck new_State = (Returned tt, s1) /\
    run startEmailVerificationCheck s1 = (Returned tt, s2) /\
    size (timers (world s1)) = 1 /\
    size (timers (world s2)) = 2 /\
    timers (world s2) !! 1 = Some verification_check_timer /\
    timers (world s2) !! 2 = Some verification_check_timer /\
    s2 <> s1.
Proof.
  do 2 eexists. split; [reflexivity|]. split; [reflexivity|].
  repeat split; by vm_compute.
Qed.

(** ** VerificationPoller: the resend cooldown *)

Ltac unfold_component :=
  unfold resendVerificationEmail, sendEmailVerification, startResendCooldown,
    showSuccessMessage, resendCooldown_tick, stopResendCooldown,
    hideSuccessMessage in *.

(** A resend request while the cooldown counts (or while another one is in
    flight) returns at once: nothing changes, nothing is requested. *)
Lemma resendVerificationEmail_rejected (remote : Remote) (s : State) :
  (0 < resendCooldown (cmp s))%Z \/ loading (cmp s) = true ->
  run (resendVerificationEmail remote) s = (Returned tt, s).
Proof.
  intros H. unfold resendVerificationEmail. unfold_monad.
  assert ((0 <? resendCooldown (cmp s))%Z || loading (cmp s) = true) as ->;
    [|done].
  apply orb_true_iff. rewrite Z.ltb_lt. done.
Qed.

(** A resend request in the idle state: the outcome of the call, by cases on
    whether sending succeeded ([error] stays null). *)
Lemma resendVerificationEmail_idle (remote : Remote) (s : State) :
  loading (cmp s) = false ->
  (resendCooldown (cmp s) <= 0)%Z ->
  exists s1,
    run (resendVerificationEmail remote) s = (Returned tt, s1) /\
    loading (cmp s1) = false /\
    (forall user,
       auth_currentUser (world s) = Some user ->
       user_emailVerified user = false ->
       requests (world s1) =
         requests (world s) ++ [ReqSendEmailVerification (user_uid user)]) /\
    (error (cmp s1) = None ->
     resendCooldown (cmp s1) = 60%Z /\
     resendCooldownInterval (cmp s1) = HTimer (next_timer (world s)) /\
     timers (world s1) !! next_timer (world s) = Some resend_cooldown_timer) /\
    (error (cmp s1) <> None ->
     resendCooldown (cmp s1) = resendCooldown (cmp s) /\
     resendCooldownInterval (cmp s1) = resendCooldownInterval (cmp s) /\
     timers (world s1) = timers (world s)).
Proof.
  intros Hl Hc. unfold_component. unfold_sdk. unfold_runtime. unfold_monad.
  assert ((0 <? resendCooldown (cmp s))%Z = false) as -> by lia.
  rewrite Hl. simpl.
  js_exec; (eexists; split; [reflexivity|]); simpl.
  all: split; [done|].
  all: split; [intros ? [= <-] Hv; simpl in *; try rewrite Hv in *;
                simpl in *; congruence|].
  all: split; [try done|intros; try done].
  all: intros _; do 2 (split; [done|]).
  all: rewrite ?lookup_insert_ne by lia; apply lookup_insert_eq.
Qed.

(** An expiry of a timer that is not scheduled (any more) does nothing. *)
Lemma fire_unscheduled (remote : Remote) (id : nat) (s : State) :
  timers (world s) !! id = None ->
  run (fire remote id) s = (Returned tt, s).
Proof. intros H. unfold fire. unfold_monad. by rewrite H. Qed.

Lemma fire_times_unscheduled (remote : Remote) (id k : nat) (s : State) :
  timers (world s) !! id = None ->
  run (fire_times remote k id) s = (Returned tt, s).
Proof.
  intros H. induction k as [|k IH]; [done|].
  simpl. unfold run, bind in *. fold (run (fire remote id) s).
  by rewrite fire_unscheduled.
Qed.

Lemma fire_times_add (remote : Remote) (id a b : nat) (s sa : State) :
  run (fire_times remote a id) s = (Returned tt, sa) ->
  run (fire_times remote (a + b) id) s = run (fire_times remote b id) sa.
Proof.
  revert s. induction a as [|a IH]; intros s Ha; simpl in *.
  - unfold run, ret in Ha. by injection Ha as ->.
  - unfold run, bind in *.
    destruct (fire remote id s) as [[[]|x] s'] eqn:Hf; [|done].
    by apply IH.
Qed.

(** One expiry of the cooldown timer the component holds: the counter goes
    down by one; the timer is cleared when that reaches zero. *)
Lemma fire_resendCooldown (remote : Remote) (id : nat) (s : State) :
  timers (world s) !! id = Some resend_cooldown_timer ->
  resendCooldownInterval (cmp s) = HTimer id ->
  id <> 0 ->
  exists s',
    run (fire remote id) s = (Returned tt, s') /\
    resendCooldown (cmp s') = (resendCooldown (cmp s) - 1)%Z /\
    loading (cmp s') = loading (cmp s) /\
    requests (world s') = requests (world s) /\
    auth_currentUser (world s') = auth_currentUser (world s) /\
    ((1 < resendCooldown (cmp s))%Z ->
     timers (world s') = timers (world s) /\
     resendCooldownInterval (cmp s') = HTimer id) /\
    ((resendCooldown (cmp s) <= 1)%Z ->
     timers (world s') = delete id (timers (world s)) /\
     resendCooldownInterval (cmp s') = HNull).
Proof.
  intros Ht Hh Hid. unfold fire. unfold_monad. rewrite Ht. simpl.
  unfold_component. unfold_runtime. unfold_monad. simpl.
  apply Nat.eqb_neq in Hid.
  destruct (Z.leb_spec (resendCooldown (cmp s) - 1) 0); simpl.
  all: rewrite ?Hh; simpl; rewrite ?Hid; simpl.
  all: eexists; split; [reflexivity|]; simpl.
  all: do 4 (split; [done|]); split; intros; try lia; done.
Qed.

(** While more than [k] seconds remain, [k] expiries just count down. *)
Lemma cooldown_counts (remote : Remote) (id k : nat) (s : State) :
  timers (world s) !! id = Some resend_cooldown_timer ->
  resendCooldownInterval (cmp s) = HTimer id ->
  id <> 0 ->
  (Z.of_nat k < resendCooldown (cmp s))%Z ->
  exists sk,
    run (fire_times remote k id) s = (Returned tt, sk) /\
    resendCooldown (cmp sk) = (resendCooldown (cmp s) - Z.of_nat k)%Z /\
    loading (cmp sk) = loading (cmp s) /\
    requests (world sk) = requests (world s) /\
    auth_currentUser (world sk) = auth_currentUser (world s) /\
    timers (world sk) = timers (world s) /\
    resendCooldownInterval (cmp sk) = HTimer id.
Proof.
  revert s. induction k as [|k IH]; intros s Ht Hh Hid Hk.
  - exists s. rewrite Z.sub_0_r. by simpl.
  - destruct (fire_resendCooldown remote id s Ht Hh Hid)
      as (s' & Hrun & Hc & Hl & Hq & Hu & Hmore & _).
    destruct Hmore as [Ht' Hh']; [lia|].
    destruct (IH s') as (sk & Hrunk & Hck & Hlk & Hqk & Huk & Htk & Hhk);
      try done; [by rewrite Ht'|lia|].
    exists sk. simpl. unfold run, bind in *. rewrite Hrun.
    split; [done|]. split; [lia|]. by rewrite Hlk, Hqk, Huk, Htk, Hl, Hq, Hu, Ht'.
Qed.

Lemma fire_times_one (remote : Remote) (id : nat) (s : State) :
  run (fire_times remote 1 id) s = run (fire remote id) s.
Proof.
  simpl. unfold run, bind, ret. by destruct (fire remote id s) as [[[]|x] s'].
Qed.

(** The whole countdown: 60 expiries after a successful resend the counter
    is zero and the timer is gone; later expiries change nothing. *)
Lemma cooldown_runs_out (remote : Remote) (id k : nat) (s : State) :
  timers (world s) !! id = Some resend_cooldown_timer ->
  resendCooldownInterval (cmp s) = HTimer id ->
  id <> 0 ->
  resendCooldown (cmp s) = 60%Z ->
  60 <= k ->
  exists sk,
    run (fire_times remote k id) s = (Returned tt, sk) /\
    resendCooldown (cmp sk) = 0%Z /\
    loading (cmp sk) = loading (cmp s) /\
    requests (world sk) = requests (world s) /\
    auth_currentUser (world sk) = auth_currentUser (world s) /\
    timers (world sk) = delete id (timers (world s)) /\
    resendCooldownInterval (cmp sk) = HNull.
Proof.
  intros Ht Hh Hid Hc Hk.
  destruct (cooldown_counts remote id 59 s Ht Hh Hid)
    as (s59 & Hrun59 & Hc59 & Hl59 & Hq59 & Hu59 & Ht59 & Hh59); [lia|].
  destruct (fire_resendCooldown remote id s59)
    as (s60 & Hrun60 & Hc60 & Hl60 & Hq60 & Hu60 & _ & Hlast);
    [by rewrite Ht59|done|done|].
  destruct Hlast as [Ht60 Hh60]; [lia|].
  exists s60.
  replace k with (59 + (1 + (k - 60))) by lia.
  rewrite (fire_times_add remote id 59 _ s s59 Hrun59).
  rewrite (fire_times_add remote id 1 _ s59 s60)
    by (by rewrite fire_times_one).
  split.
  { apply fire_times_unscheduled. rewrite Ht60. apply lookup_delete_eq. }
  split; [lia|].
  by rewrite Hl60, Hq60, Hu60, Ht60, Hl59, Hq59, Hu59, Ht59.
Qed.

(** C7.  From the idle state (no resend in flight, counter at zero), after a
    resend that succeeded the counter is 60 and a 1000 ms periodic timer is
    scheduled for it.  After [k] expiries of that timer the counter is
    [max 0 (60 - k)] and no request has been made.  As long as fewer than 60
    have happened the timer is still scheduled and a resend request returns
    at once without changing anything (no email is requested).  From the 60th
    on the counter is 0, the timer is cleared and the handle is null; a
    resend request is then let through: for an unverified provider user it
    requests a verification email. *)
Theorem resend_cooldown_cycle (remote : Remote) (s s1 : State) :
  (0 < next_timer (world s))%nat ->
  loading (cmp s) = false ->
  (resendCooldown (cmp s) <= 0)%Z ->
  run (resendVerificationEmail remote) s = (Returned tt, s1) ->
  error (cmp s1) = None ->
  let id := next_timer (world s) in
  resendCooldown (cmp s1) = 60%Z /\
  timers (world s1) !! id = Some resend_cooldown_timer /\
  forall k : nat,
    exists sk,
      run (fire_times remote k id) s1 = (Returned tt, sk) /\
      resendCooldown (cmp sk) = Z.max 0 (60 - Z.of_nat k) /\
      requests (world sk) = requests (world s1) /\
      (k < 60 ->
       timers (world sk) !! id = Some resend_cooldown_timer /\
       run (resendVerificationEmail remote) sk = (Returned tt, sk)) /\
      (60 <= k ->
       timers (world sk) !! id = None /\
       resendCooldownInterval (cmp sk) = HNull /\
       exists s',
         run (resendVerificationEmail remote) sk = (Returned tt, s') /\
         forall user,
           auth_currentUser (world sk) = Some user ->
           user_emailVerified user = false ->
           requests (world s') =
             requests (world sk) ++ [ReqSendEmailVerification (user_uid user)]).
Proof.
  intros Hpos Hl Hc Hrun Herr id.
  destruct (resendVerificationEmail_idle remote s Hl Hc)
    as (s1' & Hrun' & Hl1 & _ & Hok & _).
  rewrite Hrun in Hrun'. injection Hrun' as <-.
  destruct (Hok Herr) as (Hc1 & Hh1 & Ht1). fold id in Hh1, Ht1.
  assert (id <> 0) as Hid by (unfold id; lia).
  split; [done|]. split; [done|].
  intros k. destruct (decide (k < 60)) as [Hk|Hk].
  - destruct (cooldown_counts remote id k s1 Ht1 Hh1 Hid)
      as (sk & Hrunk & Hck & Hlk & Hqk & Huk & Htk & Hhk); [lia|].
    exists sk. split; [done|]. split; [lia|]. split; [done|].
    split; [|lia]. intros _. split; [by rewrite Htk|].
    apply resendVerificationEmail_rejected. left. lia.
  - destruct (cooldown_runs_out remote id k s1 Ht1 Hh1 Hid Hc1)
      as (sk & Hrunk & Hck & Hlk & Hqk & Huk & Htk & Hhk); [lia|].
    exists sk. split; [done|]. split; [lia|]. split; [done|].
    split; [lia|]. intros _.
    split; [rewrite Htk; apply lookup_delete_eq|]. split; [done|].
    destruct (resendVerificationEmail_idle remote sk)
      as (s' & Hrun' & _ & Hsend & _); [congruence|lia|].
    by exists s'.
Qed.

Lemma resend_cooldown_cycle_witness :
  resendCooldown (cmp cooling_State) = 60%Z /\
  timers (world cooling_State) !! 1 = Some resend_cooldown_timer /\
  exists s60,
    run (fire_times obliging_remote 60 1) cooling_State = (Returned tt, s60) /\
    resendCooldown (cmp s60) = 0%Z /\
    timers (world s60) !! 1 = None.
Proof.
  destruct (resend_cooldown_cycle obliging_remote signed_in_State cooling_State)
    as (Hc & Ht & Hk).
  - simpl. lia.
  - reflexivity.
  - simpl. lia.
  - by vm_compute.
  - by vm_compute.
  - split; [exact Hc|]. split; [exact Ht|].
    destruct (Hk 60) as (s60 & Hrun & Hc60 & _ & _ & Hidle).
    exists s60. split; [exact Hrun|]. split; [exact Hc60|].
    apply Hidle. lia.
Defined.

(** ** The cooldown counter over arbitrary histories *)

Ltac footprint :=
  split; [reflexivity|]; split; [simpl; lia|]; simpl;
  intros ? ? Hlookup;
  repeat match type of Hlookup with
  | delete _ _ !! _ = Some _ =>
      apply lookup_delete_Some in Hlookup as [_ Hlookup]
  | <[_ := _]> _ !! _ = Some _ =>
      apply lookup_insert_Some in Hlookup as [[<- <-]|[_ Hlookup]]
  end; auto.

Lemma footprint_establish (remote : Remote) (f : Flow) (s : State) :
  service_footprint s (snd (run (call remote f) s)).
Proof.
  destruct f; simpl.
  all: unfold signInWithGoogle, signInWithFacebook, signInWithSocialProvider,
         signUp, signIn, getUserData, updateLastLogin, saveUserData.
  all: unfold_sdk; unfold_runtime; unfold_monad.
  all: js_exec; footprint.
Qed.

Lemma footprint_check (remote : Remote) (s : State) :
  service_footprint s (snd (run (checkEmailVerification remote) s)).
Proof.
  unfold checkEmailVerification. unfold_sdk. unfold_runtime. unfold_monad.
  js_exec; footprint.
Qed.

Lemma footprint_stop (s : State) :
  service_footprint s (snd (run stopEmailVerificationCheck s)).
Proof.
  unfold stopEmailVerificationCheck. unfold_runtime. unfold_monad.
  js_exec; footprint.
Qed.

Lemma footprint_start (s : State) :
  service_footprint s (snd (run startEmailVerificationCheck s)).
Proof.
  unfold startEmailVerificationCheck. unfold_runtime. unfold_monad.
  js_exec; footprint.
Qed.

Lemma footprint_tick (remote : Remote) (s : State) :
  service_footprint s
    (snd (run (unobserved (emailVerificationCheck_tick remote)) s)).
Proof.
  unfold unobserved, emailVerificationCheck_tick, checkEmailVerification,
    stopEmailVerificationCheck.
  unfold_sdk. unfold_runtime. unfold_monad.
  js_exec; footprint.
Qed.

Lemma footprint_other (remote : Remote) (e : Event) (s : State) :
  match e with
  | Resend | Expire _ => True
  | _ => service_footprint s (snd (run (happen remote e) s))
  end.
Proof.
  destruct e; try exact I; simpl.
  - apply footprint_establish.
  - unfold sendEmailVerification. unfold_sdk. unfold_monad. js_exec; footprint.
  - pose proof (footprint_check remote s) as H.
    unfold run, bind, ret in *.
    by destruct (checkEmailVerification remote s) as [[b|x] s'].
  - apply footprint_start.
  - apply footprint_stop.
  - unfold signOut, stopEmailVerificationCheck.
    unfold_sdk. unfold_runtime. unfold_monad. js_exec; footprint.
  - unfold resetPassword. unfold_sdk. unfold_monad. js_exec; footprint.
  - unfold onAuthStateChanged_listener, getUserData, saveUserData.
    unfold_sdk. unfold_runtime. unfold_monad. js_exec; footprint.
Qed.

(** A step with the footprint of the service keeps the invariant. *)
Lemma cooldown_invariant_footprint (s s' : State) :
  service_footprint s s' ->
  cooldown_invariant s -> cooldown_invariant s'.
Proof.
  intros (Hcmp & Hnext & Htimers) (Hpos & Hzero & Hload & Hrange & Hheld).
  unfold cooldown_invariant. rewrite Hcmp.
  split; [lia|]. split.
  { destruct (timers (world s') !! 0) as [t|] eqn:E; [|done].
    destruct (Htimers 0 t E) as [H|[H _]]; [congruence|lia]. }
  split; [done|]. split; [done|].
  intros id t Hl Hcb.
  destruct (Htimers id t Hl) as [H|[_ H]]; [by eapply Hheld|congruence].
Qed.

Lemma cooldown_invariant_resend (remote : Remote) (s : State) :
  cooldown_invariant s ->
  cooldown_invariant (snd (run (resendVerificationEmail remote) s)).
Proof.
  intros Hinv.
  destruct (decide ((0 < resendCooldown (cmp s))%Z \/ loading (cmp s) = true))
    as [Hbusy|Hidle].
  { by rewrite resendVerificationEmail_rejected. }
  destruct Hinv as (Hpos & Hzero & Hload & Hrange & Hheld).
  assert (resendCooldown (cmp s) = 0%Z) as Hc by lia.
  assert (forall id t, timers (world s) !! id = Some t ->
                       callback t <> ResendCooldownTick) as Hnone.
  { intros id t Hl Hcb. destruct (Hheld id t Hl Hcb). lia. }
  unfold cooldown_invariant.
  unfold_component. unfold_sdk. unfold_runtime. unfold_monad.
  assert ((0 <? resendCooldown (cmp s))%Z = false) as -> by lia.
  rewrite Hload. simpl.
  js_exec.
  all: split; [lia|]; split; [by rewrite ?lookup_insert_ne by lia|].
  all: split; [done|]; split; [lia|].
  all: intros id t Hl Hcb; try (by apply Hheld with t).
  all: repeat (apply lookup_insert_Some in Hl as [[<- <-]|[_ Hl]]);
         try done; try (split; [done|lia]).
  all: by destruct (Hnone id t Hl).
Qed.

Lemma cooldown_invariant_expire (remote : Remote) (id : nat) (s : State) :
  cooldown_invariant s ->
  cooldown_invariant (snd (run (fire remote id) s)).
Proof.
  intros Hinv.
  destruct (timers (world s) !! id) as [t|] eqn:Ht;
    [|by rewrite fire_unscheduled].
  assert (id <> 0) as Hid.
  { intros ->. destruct Hinv as (_ & Hzero & _). congruence. }
  (* a timeout is taken out of the table before its callback runs *)
  set (s0 := if repeating t
             then s
             else with_world (fun w => set_timers (delete id (timers w))
                                         (next_timer w) w) s).
  assert (cooldown_invariant s0) as Hinv0.
  { subst s0. destruct (repeating t); [done|].
    apply (cooldown_invariant_footprint s); [|done]. footprint. }
  assert (run (fire remote id) s = run (run_callback remote (callback t)) s0)
    as ->.
  { unfold fire, run, bind, get. rewrite Ht. subst s0.
    by destruct (repeating t). }
  assert (repeating t = true -> timers (world s0) !! id = Some t) as Hstill.
  { intros Hr. subst s0. by rewrite Hr. }
  assert (repeating t = false -> timers (world s0) !! id = None) as Hgone.
  { intros Hr. subst s0. rewrite Hr. simpl. apply lookup_delete_eq. }
  assert (cmp s0 = cmp s) as Hcmp0 by (subst s0; by destruct (repeating t)).
  clearbody s0.
  destruct (callback t) eqn:Hcb; simpl.
  - apply (cooldown_invariant_footprint s0); [|done]. apply footprint_tick.
  - destruct Hinv as (_ & _ & _ & _ & Hheld).
    destruct (Hheld id t Ht Hcb) as [Hh Hleft].
    destruct Hinv0 as (Hpos & Hzero & Hload & Hrange & Hheld0).
    rewrite <- Hcmp0 in Hh, Hleft.
    unfold cooldown_invariant.
    unfold_component. unfold_runtime. unfold_monad. simpl.
    apply Nat.eqb_neq in Hid.
    destruct (Z.leb_spec (resendCooldown (cmp s0) - 1) 0); simpl.
    all: rewrite ?Hh; simpl; rewrite ?Hid; simpl.
    + split; [done|]. split.
      { rewrite lookup_delete_ne; [done|]. by apply Nat.eqb_neq. }
      split; [done|]. split; [lia|].
      intros id' t' Hl' Hcb'. apply lookup_delete_Some in Hl' as [Hne Hl'].
      destruct (Hheld0 id' t' Hl' Hcb') as [Heq _].
      rewrite Hh in Heq. by injection Heq as ->.
    + do 3 (split; [done|]). split; [lia|].
      intros id' t' Hl' Hcb'.
      destruct (Hheld0 id' t' Hl' Hcb') as [Heq _]. rewrite <- Heq.
      split; [done|lia].
  - apply (cooldown_invariant_footprint s0); [|done].
    unfold hideSuccessMessage. unfold_monad. footprint.
Qed.

(** The invariant holds when the page has loaded and after every event. *)
Lemma cooldown_invariant_new : cooldown_invariant new_State.
Proof.
  unfold cooldown_invariant; simpl. split; [lia|]. split; [done|].
  split; [done|]. split; [lia|]. intros id t Hl. by rewrite lookup_empty in Hl.
Qed.

Lemma cooldown_invariant_happen (remote : Remote) (e : Event) (s : State) :
  cooldown_invariant s ->
  cooldown_invariant (snd (run (happen remote e) s)).
Proof.
  intros Hinv. pose proof (footprint_other remote e s) as Hfp.
  destruct e; try (by apply (cooldown_invariant_footprint s)).
  - by apply cooldown_invariant_resend.
  - by apply cooldown_invariant_expire.
Qed.

(** The resend counter stays within 0..60 whatever happens on the page:
    after any sequence of resend requests, timer expiries and service calls
    from a state in which the invariant holds (a freshly loaded page is
    one), it is neither negative nor above 60, and a cooldown timer is
    scheduled only while the counter is positive. *)
Theorem resendCooldown_floor (remote : Remote) (es : list Event) (s : State) :
  cooldown_invariant s ->
  (0 <= resendCooldown (cmp (after remote es s)) <= 60)%Z /\
  cooldown_invariant (after remote es s).
Proof.
  revert s. induction es as [|e es IH]; intros s Hinv; simpl.
  - split; [|done]. by destruct Hinv as (_ & _ & _ & ? & _).
  - apply IH. by apply cooldown_invariant_happen.
Qed.

(** * Further properties *)

(** ** Role guards and how the guards relate *)

Lemma role_eqb_true (a b : Role) : role_eqb a b = true <-> a = b.
Proof. destruct a, b; simpl; split; congruence. Qed.

(** X1.  The Admin guard allows exactly a present, verified session with
    role admin, the Technician guard exactly a present, verified session with
    role technician; either navigates nowhere when it allows and to
    /dashboard whenever it denies, also when nobody is signed in. *)
Theorem role_guards_decision
    (user : option UserData) (state : RouterStateSnapshot) :
  (fst (AdminGuard_canActivate user state) = true <->
   exists u, user = Some u /\ emailVerified u = true /\ role u = RoleAdmin) /\
  (fst (TechnicianGuard_canActivate user state) = true <->
   exists u, user = Some u /\ emailVerified u = true /\
             role u = RoleTechnician) /\
  snd (AdminGuard_canActivate user state) =
    (if fst (AdminGuard_canActivate user state)
     then [] else [navigate "/dashboard"]) /\
  snd (TechnicianGuard_canActivate user state) =
    (if fst (TechnicianGuard_canActivate user state)
     then [] else [navigate "/dashboard"]).
Proof.
  destruct user as [u|]; simpl.
  - destruct (emailVerified u) eqn:Hv, (role u) eqn:Hr; simpl.
    all: break_logic; try (exists u; rewrite Hv, Hr; tauto).
  - break_logic.
Qed.

(** X2.  On one snapshot: whoever passes the Admin or the Technician guard
    passes the Authenticated guard; nobody passes both role guards; nobody
    passes both the Authenticated and the Guest-only guard; and the two deny
    together exactly for an unverified session of the email provider, which
    both send to /verify-email. *)
Theorem guards_are_consistent
    (user : option UserData) (state : RouterStateSnapshot) :
  let allows g := fst (canActivate g user state) in
  (allows UseAdminGuard = true -> allows UseAuthGuard = true) /\
  (allows UseTechnicianGuard = true -> allows UseAuthGuard = true) /\
  ~ (allows UseAdminGuard = true /\ allows UseTechnicianGuard = true) /\
  ~ (allows UseAuthGuard = true /\ allows UseGuestGuard = true) /\
  (allows UseAuthGuard = false /\ allows UseGuestGuard = false <->
   exists u, user = Some u /\ emailVerified u = false /\
             provider u = Some "email") /\
  (allows UseAuthGuard = false -> allows UseGuestGuard = false ->
   snd (canActivate UseAuthGuard user state) = [navigate "/verify-email"] /\
   snd (canActivate UseGuestGuard user state) = [navigate "/verify-email"]).
Proof.
  destruct user as [u|]; simpl.
  - pose proof (provider_is_email_true u) as Ht.
    destruct (emailVerified u) eqn:Hv, (provider_is_email u) eqn:Hp,
      (role u) eqn:Hr; simpl.
    all: break_logic.
    all: try (exists u; tauto).
    all: try match goal with H : provider _ = Some "email" |- _ =>
               apply Ht in H; congruence end.
  - break_logic.
Qed.

(** ** Where a navigation ends *)

Lemma match_children_answers (r : Route) (cs : list ChildRoute)
    (rest : list string) (m : Matched) :
  match_children r cs rest = Some m ->
  m = Activate (guards r) \/
  exists c t, c ∈ cs /\ child_redirectTo c = Some t /\
              m = redirect (path r) t.
Proof.
  induction cs as [|c cs IH]; simpl; [done|].
  destruct (strip_prefix (child_path c) rest) as [[|x xs]|] eqn:E.
  - destruct (child_redirectTo c) as [t|] eqn:Ht; intros [= <-].
    + right. exists c, t. split; [left|done].
    + by left.
  - intros H. destruct (IH H) as [?|(c' & t & Hin & ?)]; [by left|].
    right. exists c', t. split; [by right|done].
  - intros H. destruct (IH H) as [?|(c' & t & Hin & ?)]; [by left|].
    right. exists c', t. split; [by right|done].
Qed.

(** Whatever the table makes of a URL is an answer of one of its routes. *)
Lemma match_routes_answers (rs : list Route) (url : list string) (m : Matched) :
  match_routes rs url = Some m ->
  exists r, r ∈ rs /\ m ∈ answers r.
Proof.
  induction rs as [|r rs IH]; simpl; [done|].
  set (here := if is_wildcard (path r) then _ else _).
  assert (forall m', here = Some m' -> m' ∈ answers r) as Hhere.
  { intros m'. subst here. unfold answers.
    destruct (is_wildcard (path r)).
    - destruct (redirectTo r) as [t|]; simpl; [|done].
      intros [= <-]. set_solver.
    - destruct (strip_prefix (path r) url) as [rest|]; [|done].
      assert (match_children r (children r) rest = Some m' ->
              m' ∈ Activate (guards r)
                 :: match redirectTo r with
                    | Some t => [redirect [] t] | None => [] end
                 ++ omap (fun c => redirect (path r) <$> child_redirectTo c)
                         (children r))
        as Hch.
      { intros H. apply match_children_answers in H
          as [->|(c & t & Hin & Ht & ->)]; [left|].
        right. apply elem_of_app. right. apply list_elem_of_omap.
        exists c. split; [done|]. by rewrite Ht. }
      destruct (children r) as [|c cs] eqn:Hcs.
      + destruct rest; [|done].
        destruct (redirectTo r) as [t|]; intros [= <-]; set_solver.
      + destruct rest; apply Hch. }
  destruct here as [m'|] eqn:E.
  - intros [= <-]. exists r. split; [left|by apply Hhere].
  - intros H. destruct (IH H) as (r' & Hin & Hm). exists r'.
    split; [by right|done].
Qed.

(** A table that ends in '**' matches every URL. *)
Lemma match_routes_wildcard (rs : list Route) (r : Route) (url : list string)
    (t : string) :
  is_wildcard (path r) = true -> redirectTo r = Some t ->
  is_Some (match_routes (rs ++ [r]) url).
Proof.
  intros Hw Ht. induction rs as [|r' rs IH]; simpl.
  - rewrite Hw, Ht. simpl. by eexists.
  - destruct (if is_wildcard (path r') then _ else _); [by eexists|done].
Qed.

(** The table sends the old 'signUp' and every unknown URL elsewhere by an
    absolute redirect, and 'admin' to its dashboard by a relative one. *)
Lemma match_routes_cases (url : list string) :
  match_routes routes url ∈
     [ Some (Activate []);
       Some (Activate [UseGuestGuard]);
       Some (Activate [UseTechnicianGuard]);
       Some (Activate [UseAuthGuard]);
       Some (Activate [UseAdminGuard]);
       Some (RedirectTo true ["signup"]);
       Some (RedirectTo false ["admin"; "dashboard"]);
       Some (RedirectTo true ["home"]) ].
Proof.
  destruct (match_routes routes url) as [m|] eqn:E.
  - apply match_routes_answers in E as (r & Hr & Hm).
    unfold routes in Hr.
    apply list_elem_of_In. apply list_elem_of_In in Hm.
    repeat (apply elem_of_cons in Hr as [->|Hr];
            [vm_compute in Hm; simpl; intuition congruence|]).
    by apply elem_of_nil in Hr.
  - pose proof (match_routes_wildcard (removelast routes)
                  {| path := ["**"]; guards := []; redirectTo := Some "/home";
                     children := [] |} url "/home" eq_refl eq_refl) as [m Hm].
    change (removelast routes ++ _) with routes in Hm. congruence.
Qed.

Section Settling.

Variable serializeUrl : list string -> list (string * string) -> string.

Lemma settle_step (fuel : nat) (user : option UserData) (url : list string)
    (params : list (string * string)) (m : Matched) :
  match_routes routes url = Some m ->
  settle serializeUrl (S fuel) user url params =
    match m with
    | RedirectTo absolute target =>
        settle serializeUrl fuel user target (if absolute then [] else params)
    | Activate gs =>
        match run_guards gs user {| url := serializeUrl url params |} with
        | (true, _) => Some (url, params)
        | (false, nav :: _) =>
            settle serializeUrl fuel user
              (command_segments (commands nav)) (queryParams nav)
        | (false, []) => Some (url, params)
        end
    end.
Proof. intros H. cbn [settle]. by rewrite H. Qed.

Opaque settle match_routes.

(** A denying guard issues exactly one navigation, to one of three pages,
    and which one tells about the snapshot. *)
Lemma denial_navigation (g : GuardClass) (user : option UserData)
    (state : RouterStateSnapshot) (navs : list Navigation) :
  canActivate g user state = (false, navs) ->
  (user = None /\ g = UseAuthGuard /\
   navs = [ {| commands := ["/login"];
               queryParams := [("returnUrl", url state)] |} ]) \/
  ((exists u, user = Some u /\ emailVerified u = false /\
              provider_is_email u = true) /\
   navs = [navigate "/verify-email"]) \/
  (fst (AuthGuard_canActivate user state) = true /\
   navs = [navigate "/dashboard"]) \/
  (g <> UseAuthGuard /\ g <> UseGuestGuard /\ navs = [navigate "/dashboard"]).
Proof.
  destruct g, user as [u|]; simpl.
  all: repeat match goal with
       | |- context [if ?c then _ else _] => destruct c eqn:?
       end; intros [= <-]; simpl.
  all: try (left; done).
  all: try (right; left; split; [exists u; by destruct (emailVerified u)|done]).
  all: try (right; right; right; done).
  all: right; right; left; split; [|done].
  all: repeat match goal with H : _ = _ |- _ => rewrite H end; done.
Qed.

Lemma settle_open (fuel : nat) (user : option UserData) (u : list string)
    (p : list (string * string)) :
  match_routes routes u = Some (Activate []) ->
  settle serializeUrl (S fuel) user u p = Some (u, p).
Proof. intros H. by rewrite (settle_step _ _ _ _ _ H). Qed.

(** Where the three pages a guard navigates to lead. *)
Lemma settle_dashboard (fuel : nat) (user : option UserData)
    (p : list (string * string)) :
  exists final fparams gs,
    settle serializeUrl (S (S fuel)) user ["dashboard"] p
      = Some (final, fparams) /\
    match_routes routes final = Some (Activate gs) /\
    fst (run_guards gs user {| url := serializeUrl final fparams |}) = true.
Proof.
  rewrite (settle_step _ _ _ _ (Activate [UseAuthGuard])) by (by vm_compute).
  cbn [run_guards canActivate].
  destruct (AuthGuard_canActivate user _) as [[] navs] eqn:Hg.
  { exists ["dashboard"], p, [UseAuthGuard].
    split; [done|]. split; [by vm_compute|]. simpl. by rewrite Hg. }
  destruct user as [u|]; simpl in Hg.
  - destruct (negb (emailVerified u) && provider_is_email u); [|done].
    injection Hg as <-. simpl.
    exists ["verify-email"], [], []. split; [|by vm_compute].
    apply settle_open. by vm_compute.
  - injection Hg as <-. simpl.
    exists ["login"], [("returnUrl", serializeUrl ["dashboard"] p)],
      [UseGuestGuard].
    split; [|by vm_compute].
    by rewrite (settle_step _ _ _ _ (Activate [UseGuestGuard]))
      by (by vm_compute).
Qed.

(** X3.  For every session snapshot and every URL, however the router
    writes URLs out, following the redirects of the route table and the
    navigations of denying guards ends within four navigations, on a page
    whose guards let this snapshot in: the guards and the table cannot send a
    visitor round in circles. *)
Theorem navigation_settles
    (user : option UserData) (url : list string)
    (params : list (string * string)) :
  exists final fparams gs,
    settle serializeUrl 4 user url params = Some (final, fparams) /\
    match_routes routes final = Some (Activate gs) /\
    fst (run_guards gs user {| url := serializeUrl final fparams |}) = true.
Proof.
  assert (forall u p, match_routes routes u = Some (Activate []) ->
            forall fuel, exists final fparams gs,
              settle serializeUrl (S fuel) user u p = Some (final, fparams) /\
              match_routes routes final = Some (Activate gs) /\
              fst (run_guards gs user
                     {| url := serializeUrl final fparams |}) = true)
    as Hopen.
  { intros u p Hu fuel. exists u, p, []. by rewrite (settle_step _ _ _ _ _ Hu). }
  assert (forall u p g, match_routes routes u = Some (Activate [g]) ->
            forall fuel, exists final fparams gs,
              settle serializeUrl (S (S (S fuel))) user u p
                = Some (final, fparams) /\
              match_routes routes final = Some (Activate gs) /\
              fst (run_guards gs user
                     {| url := serializeUrl final fparams |}) = true)
    as Hguarded.
  { intros u p g Hu fuel. rewrite (settle_step _ _ _ _ _ Hu).
    cbn [run_guards].
    destruct (canActivate g user {| url := serializeUrl u p |})
      as [[] navs] eqn:Hg.
    { exists u, p, [g]. split; [done|]. split; [done|]. simpl. by rewrite Hg. }
    apply denial_navigation in Hg
      as [(-> & _ & ->)|[[(usr & -> & Hv & Hp) ->]|[[_ ->]|(_ & _ & ->)]]].
    - exists ["login"], [("returnUrl", serializeUrl u p)], [UseGuestGuard].
      split; [|by vm_compute].
      by rewrite (settle_step _ _ _ _ (Activate [UseGuestGuard]))
        by (by vm_compute).
    - exists ["verify-email"], [], []. split; [|by vm_compute].
      apply settle_open. by vm_compute.
    - apply settle_dashboard.
    - apply settle_dashboard. }
  pose proof (match_routes_cases url) as Hcases.
  repeat (apply elem_of_cons in Hcases as [Hm|Hcases]).
  - by apply Hopen.
  - by eapply Hguarded.
  - by eapply Hguarded.
  - by eapply Hguarded.
  - by eapply Hguarded.
  - rewrite (settle_step _ _ _ _ _ Hm). eapply Hguarded. by vm_compute.
  - rewrite (settle_step _ _ _ _ _ Hm). eapply Hguarded. by vm_compute.
  - rewrite (settle_step _ _ _ _ _ Hm). apply Hopen. by vm_compute.
  - by apply elem_of_nil in Hcases.
Qed.

(** X4.  A visitor without a session who opens a guarded page ends on /login
    (a guest-only page lets him in).  Behind the Authenticated guard the
    login page gets as returnUrl the whole requested URL, query included, as
    the router writes it; behind the Admin or the Technician guard the
    visitor is first sent to /dashboard, so the returnUrl is the URL of the
    dashboard without a query, and the requested URL is lost. *)
Theorem visitor_without_session
    (url : list string) (params : list (string * string)) (g : GuardClass) :
  match_routes routes url = Some (Activate [g]) ->
  settle serializeUrl 4 None url params =
    match g with
    | UseGuestGuard => Some (url, params)
    | UseAuthGuard =>
        Some (["login"], [("returnUrl", serializeUrl url params)])
    | UseAdminGuard | UseTechnicianGuard =>
        Some (["login"], [("returnUrl", serializeUrl ["dashboard"] [])])
    end.
Proof.
  intros Hm. rewrite (settle_step _ _ _ _ _ Hm).
  destruct g; simpl.
  2,3: rewrite (settle_step _ _ _ _ (Activate [UseAuthGuard]))
         by (by vm_compute); simpl.
  1,2,3: by rewrite (settle_step _ _ _ _ (Activate [UseGuestGuard]))
           by (by vm_compute).
  done.
Qed.

End Settling.

Lemma visitor_without_session_witness :
  settle plain_url 4 None ["vehicles"] [("tab", "2")] =
    Some (["login"], [("returnUrl", "/vehicles?tab=2")]) /\
  settle plain_url 4 None ["admin"; "orders"] [("tab", "2")] =
    Some (["login"], [("returnUrl", "/dashboard")]).
Proof.
  split.
  - apply (visitor_without_session plain_url ["vehicles"] [("tab", "2")]
             UseAuthGuard).
    by vm_compute.
  - apply (visitor_without_session plain_url ["admin"; "orders"]
             [("tab", "2")] UseAdminGuard).
    by vm_compute.
Defined.

(** ** The auth-state listener *)

(** X5.  The auth-state listener reconciles the session.  Without a provider
    user it publishes null.  With one whose directory record is read it
    publishes that record exactly as stored and writes nothing.  With one for
    whom no record is read and whose new record the directory accepts, it
    stores and publishes a record with the provider's identifier, role user,
    the provider's verification flag and the provider tag of the first linked
    identity (or "email").  In these cases it returns with loading false. *)
Theorem onAuthStateChanged_listener_reconciles
    (remote : Remote) (user : option FirebaseUser) (s : State) :
  match user with
  | None =>
      exists s',
        run (onAuthStateChanged_listener remote user) s = (Returned tt, s') /\
        session s' = None /\
        value (loadingSubject (svc s')) = false /\
        world s' = world s
  | Some u =>
      let read := ReqGetDoc (user_uid u) in
      match firestore_fault remote (requests (world s)) read,
            users (world s) !! user_uid u with
      | None, Some d =>
          exists s',
            run (onAuthStateChanged_listener remote user) s = (Returned tt, s') /\
            session s' = Some d /\
            value (loadingSubject (svc s')) = false /\
            users (world s') = users (world s) /\
            requests (world s') = requests (world s) ++ [read]
      | _, _ =>
          (forall d,
             firestore_fault remote (requests (world s) ++ [read])
               (ReqSetDoc (user_uid u) d) = None) ->
            exists s' new,
              run (onAuthStateChanged_listener remote user) s
                = (Returned tt, s') /\
              session s' = Some new /\
              users (world s') = <[user_uid u := new]> (users (world s)) /\
              value (loadingSubject (svc s')) = false /\
              uid new = user_uid u /\
              role new = RoleUser /\
              emailVerified new = user_emailVerified u /\
              provider new =
                Some (or_else (head (user_providerData u)) "email")
      end
  end.
Proof.
  unfold onAuthStateChanged_listener, getUserData, saveUserData, session.
  unfold_sdk. unfold_runtime. unfold_monad.
  destruct user as [u|]; simpl.
  - destruct (firestore_fault remote (requests (world s))
                (ReqGetDoc (user_uid u))) as [e|] eqn:Hf; simpl.
    + destruct (users (world s) !! user_uid u); intros Hd; rewrite Hd; simpl.
      all: do 2 eexists; split; [reflexivity|]; by simpl.
    + destruct (users (world s) !! user_uid u) as [d|] eqn:Hu; simpl.
      * eexists; split; [reflexivity|]; by simpl.
      * intros Hd; rewrite Hd; simpl.
        do 2 eexists; split; [reflexivity|]; by simpl.
  - eexists; split; [reflexivity|]. by destruct s as [? ? []].
Qed.

(** X6.  When the listener finds no record for the provider user and the
    directory rejects the new one with [e], the listener throws [e] as it
    is (not translated), publishes nothing and does not clear loading: the
    loading subject is left as it was, so a page that was loading stays
    loading. *)
Theorem onAuthStateChanged_listener_save_rejected
    (remote : Remote) (u : FirebaseUser) (e : JsError) (s : State) :
  users (world s) !! user_uid u = None ->
  (forall d,
     firestore_fault remote (requests (world s) ++ [ReqGetDoc (user_uid u)])
       (ReqSetDoc (user_uid u) d) = Some e) ->
  exists s',
    run (onAuthStateChanged_listener remote (Some u)) s
      = (Thrown (ExnRaw e), s') /\
    currentUserSubject (svc s') = currentUserSubject (svc s) /\
    loadingSubject (svc s') = loadingSubject (svc s) /\
    users (world s') = users (world s) /\
    last (console (world s')) = Some "Error saving user data:".
Proof.
  intros Hnone Hrej.
  unfold onAuthStateChanged_listener, getUserData, saveUserData.
  unfold_sdk. unfold_runtime. unfold_monad. simpl.
  destruct (firestore_fault remote (requests (world s))
              (ReqGetDoc (user_uid u))) as [e0|]; simpl.
  all: rewrite ?Hnone; simpl; rewrite Hrej; simpl.
  all: eexists; split; [reflexivity|]; simpl.
  all: by rewrite last_snoc.
Qed.

Lemma onAuthStateChanged_listener_save_rejected_witness :
  exists s',
    run (onAuthStateChanged_listener directory_down_remote
           (Some sample_identity)) new_State
      = (Thrown (ExnRaw offline), s') /\
    value (loadingSubject (svc s')) = true /\
    session s' = None.
Proof.
  destruct (onAuthStateChanged_listener_save_rejected directory_down_remote
              sample_identity offline new_State)
    as (s' & Hrun & Hcur & Hload & _).
  - reflexivity.
  - reflexivity.
  - exists s'. split; [exact Hrun|]. unfold session. by rewrite Hcur, Hload.
Defined.

(** X7.  A directory read that fails is taken for a missing record: if the
    listener cannot read the record of the provider user and the directory
    then accepts a write, whatever was stored for that user is replaced by a
    freshly synthesized record with role user and a new creation time. *)
Theorem unread_record_is_overwritten
    (remote : Remote) (u : FirebaseUser) (d : UserData) (e : JsError)
    (s : State) :
  users (world s) !! user_uid u = Some d ->
  firestore_fault remote (requests (world s)) (ReqGetDoc (user_uid u)) = Some e ->
  (forall d',
     firestore_fault remote (requests (world s) ++ [ReqGetDoc (user_uid u)])
       (ReqSetDoc (user_uid u) d') = None) ->
  exists s' new,
    run (onAuthStateChanged_listener remote (Some u)) s = (Returned tt, s') /\
    users (world s') !! user_uid u = Some new /\
    session s' = Some new /\
    role new = RoleUser /\
    createdAt new = ServerTimestamp /\
    last (console (world s')) = Some "Error getting user data:".
Proof.
  intros Hd Hread Hwrite.
  unfold onAuthStateChanged_listener, getUserData, saveUserData, session.
  unfold_sdk. unfold_runtime. unfold_monad. simpl.
  rewrite Hread. simpl. rewrite Hwrite. simpl.
  do 2 eexists. split; [reflexivity|]. simpl.
  rewrite lookup_insert_eq, last_snoc. done.
Qed.

Lemma unread_record_is_overwritten_witness :
  users (world admin_known_State) !! "u1" = Some admin_record /\
  exists s' new,
    run (onAuthStateChanged_listener unreadable_remote (Some verified_identity))
        admin_known_State = (Returned tt, s') /\
    users (world s') !! "u1" = Some new /\
    role new = RoleUser.
Proof.
  split; [reflexivity|].
  destruct (unread_record_is_overwritten unreadable_remote verified_identity
              admin_record offline admin_known_State)
    as (s' & new & Hrun & Hu & _ & Hrole & _).
  - reflexivity.
  - reflexivity.
  - reflexivity.
  - exists s', new. split; [exact Hrun|]. split; [exact Hu|exact Hrole].
Defined.

(** ** Verification email, password reset *)

(** X8.  [sendEmailVerification] does nothing at all when nobody is signed
    in at the provider or the provider user is already verified; otherwise
    it asks the provider once for a verification email, touches neither the
    service nor the directory, and throws the translated error when the
    provider rejects. *)
Theorem sendEmailVerification_outcome (remote : Remote) (s : State) :
  match auth_currentUser (world s) with
  | None => run (sendEmailVerification remote) s = (Returned tt, s)
  | Some user =>
      if user_emailVerified user
      then run (sendEmailVerification remote) s = (Returned tt, s)
      else
        exists s',
          requests (world s') =
            requests (world s) ++ [ReqSendEmailVerification (user_uid user)] /\
          svc s' = svc s /\ cmp s' = cmp s /\
          users (world s') = users (world s) /\
          run (sendEmailVerification remote) s =
            (match sendEmailVerification_answer remote (requests (world s)) user with
             | None => Returned tt
             | Some e => Thrown (ExnAuth (handleAuthError e))
             end, s')
  end.
Proof.
  unfold sendEmailVerification. unfold_sdk. unfold_monad.
  destruct (auth_currentUser (world s)) as [user|]; [|done].
  destruct (user_emailVerified user); simpl; [done|].
  destruct (sendEmailVerification_answer _ _ _); simpl.
  all: eexists; split; [|split; [|split; [|split; [|reflexivity]]]]; done.
Qed.

(** X9.  [resetPassword] asks the provider once and has no effect on the
    session, the loading flag, the directory or the provider user; a
    rejection is thrown translated. *)
Theorem resetPassword_outcome (remote : Remote) (email : string) (s : State) :
  exists s',
    requests (world s') = requests (world s) ++ [ReqSendPasswordResetEmail email] /\
    svc s' = svc s /\ cmp s' = cmp s /\
    users (world s') = users (world s) /\
    auth_currentUser (world s') = auth_currentUser (world s) /\
    navigations (world s') = navigations (world s) /\
    run (resetPassword remote email) s =
      (match sendPasswordResetEmail_answer remote (requests (world s)) email with
       | None => Returned tt
       | Some e => Thrown (ExnAuth (handleAuthError e))
       end, s').
Proof.
  unfold resetPassword. unfold_sdk. unfold_monad. simpl.
  destruct (sendPasswordResetEmail_answer _ _ _); simpl.
  all: eexists; repeat (split; [|try reflexivity]); done.
Qed.

(** ** The verification-check timer, continued *)

(** X10.  [stopEmailVerificationCheck] never throws and is idempotent: a
    second stop changes nothing; on a service whose handle is not a timer id
    (never started, or already stopped) the first stop changes nothing
    either. *)
Theorem stopEmailVerificationCheck_idempotent (s : State) :
  exists s1,
    run stopEmailVerificationCheck s = (Returned tt, s1) /\
    run stopEmailVerificationCheck s1 = (Returned tt, s1) /\
    (truthy_handle (emailVerificationCheckInterval (svc s)) = false -> s1 = s).
Proof.
  unfold stopEmailVerificationCheck. unfold_runtime. unfold_monad. simpl.
  destruct (emailVerificationCheckInterval (svc s)) as [| |n] eqn:Hh; simpl.
  1,2: exists s; rewrite Hh; simpl; by repeat split.
  destruct (n =? 0)%nat eqn:Hn; simpl.
  - exists s. rewrite Hh. simpl. rewrite Hn. by repeat split.
  - eexists. split; [reflexivity|]. simpl. by split.
Qed.

(** X11.  Starting the check and stopping it again leaves the timer table as
    it was: the timer that start scheduled is the one stop clears, and the
    handle ends null. *)
Theorem start_then_stop_restores_timers (s : State) :
  ids_handed_out (world s) ->
  0 < next_timer (world s) ->
  exists s',
    run (startEmailVerificationCheck ;; stopEmailVerificationCheck)%js s
      = (Returned tt, s') /\
    timers (world s') = timers (world s) /\
    emailVerificationCheckInterval (svc s') = HNull /\
    next_timer (world s') = S (next_timer (world s)).
Proof.
  intros Hids Hpos.
  assert (timers (world s) !! next_timer (world s) = None) as Hfresh.
  { destruct (timers (world s) !! next_timer (world s)) eqn:E; [|done].
    assert (next_timer (world s) < next_timer (world s)); [|lia].
    apply Hids. by rewrite E. }
  unfold startEmailVerificationCheck, stopEmailVerificationCheck.
  unfold_runtime. unfold_monad. simpl.
  destruct (Nat.eqb_spec (next_timer (world s)) 0) as [|_]; [lia|]. simpl.
  eexists. split; [reflexivity|]. simpl.
  by rewrite delete_insert_id.
Qed.

Lemma start_then_stop_restores_timers_witness :
  exists s',
    run (startEmailVerificationCheck ;; stopEmailVerificationCheck)%js
        signed_in_State = (Returned tt, s') /\
    timers (world s') = timers (world signed_in_State) /\
    emailVerificationCheckInterval (svc s') = HNull /\
    next_timer (world s') = 2.
Proof.
  apply (start_then_stop_restores_timers signed_in_State).
  - intros id [t Ht]. simpl in Ht. by rewrite lookup_empty in Ht.
  - simpl. lia.
Defined.

(** [checkEmailVerification] leaves timers, navigations and the handle of
    the service alone, whatever its outcome. *)
Lemma checkEmailVerification_frame (remote : Remote) (s : State) :
  let s1 := snd (run (checkEmailVerification remote) s) in
  timers (world s1) = timers (world s) /\
  navigations (world s1) = navigations (world s) /\
  emailVerificationCheckInterval (svc s1) = emailVerificationCheckInterval (svc s) /\
  cmp s1 = cmp s.
Proof.
  unfold checkEmailVerification. unfold_sdk. unfold_runtime. unfold_monad.
  js_exec; done.
Qed.

(** X12.  One expiry of a scheduled verification check never throws.  If the
    check it runs returns true, the service clears the timer it holds and
    navigates to /dashboard once; a timer the service does not hold (one left
    behind by an earlier start) stays scheduled and will do the same again.
    In every other case (not verified, no provider user, or the check
    failing) timers, navigations and handle are untouched: only a true check
    or a stop ends the polling. *)
Theorem emailVerificationCheck_expiry
    (remote : Remote) (id : nat) (s : State) :
  timers (world s) !! id = Some verification_check_timer ->
  exists s',
    run (fire remote id) s = (Returned tt, s') /\
    match fst (run (checkEmailVerification remote) s) with
    | Returned true =>
        navigations (world s') =
          navigations (world s) ++ [navigate "/dashboard"] /\
        truthy_handle (emailVerificationCheckInterval (svc s')) = false /\
        (emailVerificationCheckInterval (svc s) = HTimer id -> id <> 0 ->
         timers (world s') = delete id (timers (world s))) /\
        (emailVerificationCheckInterval (svc s) <> HTimer id ->
         timers (world s') !! id = Some verification_check_timer)
    | _ =>
        timers (world s') = timers (world s) /\
        navigations (world s') = navigations (world s) /\
        emailVerificationCheckInterval (svc s') =
          emailVerificationCheckInterval (svc s)
    end.
Proof.
  intros Ht.
  pose proof (checkEmailVerification_frame remote s) as Hframe.
  unfold fire, run, bind, get in *. rewrite Ht. simpl.
  unfold unobserved, emailVerificationCheck_tick, try_catch, bind, ret.
  destruct (checkEmailVerification remote s) as [[[]|x] s1]; simpl in *.
  3: { eexists. split; [reflexivity|]. tauto. }
  2: { eexists. split; [reflexivity|]. tauto. }
  destruct Hframe as (Htm & Hnav & Hh & _).
  destruct (stopEmailVerificationCheck_run s1)
    as (s2 & Hrun & _ & _ & Hfalsy & Hclear).
  unfold run in Hrun. rewrite Hrun. unfold router_navigate, modify. simpl.
  eexists. split; [reflexivity|]. simpl.
  assert (navigations (world s2) = navigations (world s1)) as Hnav2.
  { revert Hrun. unfold stopEmailVerificationCheck. unfold_runtime.
    unfold_monad. js_exec; by intros [= <-]. }
  split; [by rewrite Hnav2, Hnav|]. split; [done|]. split.
  - intros Hheld Hid. rewrite <- Hh in Hheld.
    destruct (Hclear id Hheld Hid) as [-> _]. by rewrite Htm.
  - intros Hother. rewrite <- Hh in Hother.
    revert Hrun. unfold stopEmailVerificationCheck. unfold_runtime.
    unfold_monad. simpl.
    destruct (emailVerificationCheckInterval (svc s1)) as [| |n] eqn:E; simpl.
    1,2: intros [= <-]; by rewrite Htm.
    destruct (n =? 0)%nat; simpl; intros [= <-]; simpl.
    + by rewrite Htm.
    + rewrite lookup_delete_ne by congruence. by rewrite Htm.
Qed.

(** ** Roles and identifiers over arbitrary histories *)

Ltac origin :=
  unfold directory_footprint, record_origin, session_origin, session;
  split; [intros k d' Hl|intros u' Hs]; simpl in *;
  repeat match goal with
  | H : <[?k := _]> _ !! ?k = Some _ |- _ =>
      rewrite lookup_insert_eq in H; injection H as <-
  | H : <[?k := _]> _ !! ?k = None |- _ =>
      rewrite lookup_insert_eq in H; discriminate
  | H : <[_ := _]> _ !! _ = Some _ |- _ =>
      apply lookup_insert_Some in H as [[<- <-]|[_ H]]
  | H : Some _ = Some _ |- _ => injection H as <-
  end; simpl; try congruence; eauto 10.

Lemma directory_footprint_establish (remote : Remote) (f : Flow) (s : State) :
  directory_footprint s (snd (run (call remote f) s)).
Proof.
  destruct f; simpl.
  all: unfold signInWithGoogle, signInWithFacebook, signInWithSocialProvider,
         signUp, signIn, getUserData, updateLastLogin, saveUserData.
  all: unfold_sdk; unfold_runtime; unfold_monad.
  all: js_exec; origin.
Qed.

Lemma directory_footprint_happen (remote : Remote) (e : Event) (s : State) :
  directory_footprint s (snd (run (happen remote e) s)).
Proof.
  destruct e; simpl.
  - unfold_component. unfold_sdk. unfold_runtime. unfold_monad.
    js_exec; origin.
  - unfold fire, run_callback, unobserved, emailVerificationCheck_tick,
      checkEmailVerification, stopEmailVerificationCheck.
    unfold_component. unfold_sdk. unfold_runtime. unfold_monad.
    js_exec; origin.
  - apply directory_footprint_establish.
  - unfold sendEmailVerification. unfold_sdk. unfold_monad. js_exec; origin.
  - unfold checkEmailVerification. unfold_sdk. unfold_runtime. unfold_monad.
    js_exec; origin.
  - unfold startEmailVerificationCheck. unfold_runtime. unfold_monad.
    js_exec; origin.
  - unfold stopEmailVerificationCheck. unfold_runtime. unfold_monad.
    js_exec; origin.
  - unfold signOut, stopEmailVerificationCheck.
    unfold_sdk. unfold_runtime. unfold_monad. js_exec; origin.
  - unfold resetPassword. unfold_sdk. unfold_monad. js_exec; origin.
  - unfold onAuthStateChanged_listener, getUserData, saveUserData.
    unfold_sdk. unfold_runtime. unfold_monad. js_exec; origin.
Qed.

Lemma role_absent_step (r : Role) (s s' : State) :
  r <> RoleUser -> directory_footprint s s' ->
  role_absent r s -> role_absent r s'.
Proof.
  intros Hr [Hrec Hses] [Hdir Hcur]. split.
  - intros k d' Hl. destruct (Hrec k d' Hl) as [[_ ->]|(d & Hd & _ & ->)];
      [congruence|by eapply Hdir].
  - intros u' Hu.
    destruct (Hses u' Hu) as [->|[(k & d & Hd & ->)|(u & Hs & ->)]];
      [congruence|by eapply Hdir|by apply Hcur].
Qed.

Lemma filed_by_uid_step (s s' : State) :
  directory_footprint s s' -> filed_by_uid s -> filed_by_uid s'.
Proof.
  intros [Hrec _] Hfiled k d' Hl.
  destruct (Hrec k d' Hl) as [[-> _]|(d & Hd & -> & _)]; [done|].
  by apply Hfiled.
Qed.

(** X13.  The session manager never grants a role: if no directory record
    and no published session carries admin (or technician), none does after
    any sequence of sign-ups, sign-ins, listener notifications, verification
    checks, timer expiries, resends, resets and sign-outs; in particular the
    guard of that role keeps denying. *)
Theorem no_privilege_escalation
    (remote : Remote) (es : list Event) (r : Role) (s : State)
    (state : RouterStateSnapshot) :
  r <> RoleUser ->
  role_absent r s ->
  role_absent r (after remote es s) /\
  fst (match r with
       | RoleTechnician => TechnicianGuard_canActivate
       | _ => AdminGuard_canActivate
       end (session (after remote es s)) state) = false.
Proof.
  intros Hr. revert s. induction es as [|e es IH]; intros s Habs; simpl.
  - split; [done|]. destruct Habs as [_ Hcur].
    destruct (session s) as [u|] eqn:Hs; [|by destruct r].
    specialize (Hcur u eq_refl).
    destruct r; [done| |]; simpl; destruct (emailVerified u); simpl; try done.
    all: destruct (role u); simpl; congruence.
  - apply IH. eapply role_absent_step; [done| |done].
    apply directory_footprint_happen.
Qed.

(** X14.  Every directory record stays filed under its own identifier: if
    that holds of the directory, it holds after any sequence of events. *)
Theorem records_stay_filed_by_uid
    (remote : Remote) (es : list Event) (s : State) :
  filed_by_uid s -> filed_by_uid (after remote es s).
Proof.
  revert s. induction es as [|e es IH]; intros s Hf; simpl; [done|].
  apply IH. eapply filed_by_uid_step; [|done].
  apply directory_footprint_happen.
Qed.

Lemma emailVerificationCheck_expiry_witness :
  exists s',
    run (fire verified_remote 1) polling_State = (Returned tt, s') /\
    navigations (world s') = [navigate "/dashboard"] /\
    timers (world s') = delete 1 (timers (world polling_State)).
Proof.
  destruct (emailVerificationCheck_expiry verified_remote 1 polling_State)
    as (s' & Hrun & Hcase); [reflexivity|].
  assert (fst (run (checkEmailVerification verified_remote) polling_State)
          = Returned true) as Hcheck by (by vm_compute).
  rewrite Hcheck in Hcase. destruct Hcase as (Hnav & _ & Hheld & _).
  exists s'. split; [exact Hrun|]. split; [exact Hnav|].
  apply Hheld; [reflexivity|lia].
Defined.

Lemma no_privilege_escalation_witness :
  role_absent RoleAdmin (after obliging_remote sample_history new_State) /\
  fst (AdminGuard_canActivate
         (session (after obliging_remote sample_history new_State))
         {| url := "/admin" |}) = false.
Proof.
  apply (no_privilege_escalation obliging_remote sample_history RoleAdmin
           new_State {| url := "/admin" |}).
  - discriminate.
  - split.
    + intros k d Hl. simpl in Hl. by rewrite lookup_empty in Hl.
    + intros u Hu. discriminate.
Defined.

Lemma records_stay_filed_by_uid_witness :
  (exists d, users (world (after obliging_remote sample_history new_State))
               !! "u1" = Some d) /\
  filed_by_uid (after obliging_remote sample_history new_State).
Proof.
  split; [eexists; by vm_compute|].
  apply (records_stay_filed_by_uid obliging_remote sample_history new_State).
  intros k d Hl. simpl in Hl. by rewrite lookup_empty in Hl.
Defined.

(** ** What the flows publish *)

(** X15.  A sign-up that returns has made four requests in this order
    (create the account, set the display name, send the verification email,
    store the record) and has stored and published one and the same record:
    role user, provider "email", not verified.  With that session both the
    Authenticated and the Guest-only guard deny and navigate to
    /verify-email. *)
Theorem signUp_then_guards
    (remote : Remote) (email password name : string) (s s' : State)
    (state : RouterStateSnapshot) :
  run (signUp remote email password name) s = (Returned tt, s') ->
  exists u,
    session s' = Some u /\
    users (world s') !! uid u = Some u /\
    role u = RoleUser /\ provider u = Some "email" /\
    emailVerified u = false /\ displayName u = name /\
    requests (world s') =
      requests (world s) ++
        [ReqCreateUser email password; ReqUpdateProfile (uid u) name;
         ReqSendEmailVerification (uid u); ReqSetDoc (uid u) u] /\
    AuthGuard_canActivate (session s') state
      = (false, [navigate "/verify-email"]) /\
    GuestGuard_canActivate (session s') = (false, [navigate "/verify-email"]).
Proof.
  unfold signUp, saveUserData, session.
  unfold_sdk. unfold_runtime. unfold_monad.
  js_exec; intros [= <-]; simpl.
  eexists. split; [reflexivity|]. simpl.
  rewrite lookup_insert_eq, <- !app_assoc. simpl. by repeat split.
Qed.

Lemma signUp_then_guards_witness :
  exists s' u,
    run (signUp obliging_remote "a@b.com" "Abc123" "Ann") new_State
      = (Returned tt, s') /\
    session s' = Some u /\
    users (world s') !! "u1" = Some u /\
    AuthGuard_canActivate (session s') {| url := "/dashboard" |}
      = (false, [navigate "/verify-email"]).
Proof.
  set (s' := snd (run (signUp obliging_remote "a@b.com" "Abc123" "Ann")
                      new_State)).
  assert (run (signUp obliging_remote "a@b.com" "Abc123" "Ann") new_State
          = (Returned tt, s')) as Hrun by (by vm_compute).
  destruct (signUp_then_guards obliging_remote "a@b.com" "Abc123" "Ann"
              new_State s' {| url := "/dashboard" |} Hrun)
    as (u & Hs & Hd & _ & _ & _ & _ & _ & Hg & _).
  exists s', u. split; [exact Hrun|]. split; [exact Hs|]. split; [|exact Hg].
  assert (uid u = "u1") as <-; [|exact Hd].
  assert (session s' = Some sample_user) as Hs' by (by vm_compute).
  rewrite Hs in Hs'. by injection Hs' as ->.
Defined.

(** X16.  A sign-in that reads the record refreshes the verification flag in
    the published session only: the session carries the provider's flag,
    while the directory record keeps the flag it had (only its last-login
    time is patched), so session and directory can disagree until a
    verification check writes the flag. *)
Theorem signIn_refreshes_session_only
    (remote : Remote) (email password : string) (s : State)
    (user : FirebaseUser) (d : UserData) :
  signInWithPassword_answer remote (requests (world s)) email password
    = inr user ->
  users (world s) !! user_uid user = Some d ->
  (forall h q, firestore_fault remote h q = None) ->
  exists s' u d',
    run (signIn remote email password) s = (Returned tt, s') /\
    session s' = Some u /\
    users (world s') !! user_uid user = Some d' /\
    emailVerified u = user_emailVerified user /\
    emailVerified d' = emailVerified d /\
    lastLoginAt d' = ServerTimestamp /\
    u = set_emailVerified (user_emailVerified user) d' /\
    d' = set_lastLoginAt ServerTimestamp d.
Proof.
  intros Hcred Hd Hok.
  unfold signIn, getUserData, updateLastLogin, session.
  unfold_sdk. unfold_runtime. unfold_monad. simpl.
  rewrite Hcred. simpl. rewrite !Hok. simpl. rewrite Hd. simpl.
  rewrite !Hok. simpl. rewrite lookup_insert_eq. simpl.
  do 3 eexists. split; [reflexivity|]. simpl.
  rewrite lookup_insert_eq. by repeat split.
Qed.

Lemma signIn_refreshes_session_only_witness :
  exists s' u d',
    run (signIn verified_remote "a@b.com" "Abc123") signed_in_State
      = (Returned tt, s') /\
    session s' = Some u /\
    users (world s') !! "u1" = Some d' /\
    emailVerified u = true /\
    emailVerified d' = false.
Proof.
  destruct (signIn_refreshes_session_only verified_remote "a@b.com" "Abc123"
              signed_in_State verified_identity sample_user)
    as (s' & u & d' & Hrun & Hs & Hd & Hu & Hd' & _).
  - reflexivity.
  - reflexivity.
  - reflexivity.
  - exists s', u, d'. split; [exact Hrun|]. split; [exact Hs|].
    split; [exact Hd|]. split; [exact Hu|exact Hd'].
Defined.

Lemma signInWithSocialProvider_session
    (remote : Remote) (providerId : string) (scopes : list string)
    (tag : string) (s : State) (user : FirebaseUser)
    (state : RouterStateSnapshot) :
  signInWithPopup_answer remote (requests (world s)) providerId scopes
    = inr user ->
  (forall h q, firestore_fault remote h q = None) ->
  exists s' u,
    run (signInWithSocialProvider remote providerId scopes tag) s
      = (Returned tt, s') /\
    session s' = Some u /\
    uid u = match users (world s) !! user_uid user with
            | Some d => uid d | None => user_uid user end /\
    emailVerified u = user_emailVerified user /\
    match users (world s) !! user_uid user with
    | None =>
        users (world s') !! user_uid user = Some u /\
        role u = RoleUser /\ provider u = Some tag /\
        (tag <> "email" ->
         fst (AuthGuard_canActivate (session s') state) = true)
    | Some d =>
        role u = role d /\ provider u = provider d /\
        createdAt u = createdAt d /\
        users (world s') !! user_uid user
          = Some (set_lastLoginAt ServerTimestamp d)
    end.
Proof.
  intros Hpop Hok.
  unfold signInWithSocialProvider, getUserData, updateLastLogin, saveUserData,
    session.
  unfold_sdk. unfold_runtime. unfold_monad. simpl.
  rewrite Hpop. simpl. rewrite !Hok. simpl.
  destruct (users (world s) !! user_uid user) as [d|] eqn:Hd; simpl.
  - rewrite !Hok. simpl. rewrite Hd. simpl.
    do 2 eexists. split; [reflexivity|]. simpl.
    rewrite lookup_insert_eq. by repeat split.
  - rewrite !Hok. simpl.
    do 2 eexists. split; [reflexivity|]. simpl.
    rewrite lookup_insert_eq. do 6 (split; [done|]).
    intros Htag. unfold provider_is_email. simpl.
    apply String.eqb_neq in Htag. rewrite Htag. by rewrite andb_false_r.
Qed.

(** X17.  A Google or Facebook sign-in that the provider accepts, with the
    directory reachable, publishes a session with the provider's verification
    flag.  For an identifier without a record it stores and publishes a new
    record with role user and provider tag "google" resp. "facebook", which
    the Authenticated guard admits whether verified or not.  For a known
    identifier it keeps the stored role, provider tag and creation time and
    only patches the last-login time in the directory. *)
Theorem social_sign_in_session
    (remote : Remote) (google : bool) (s : State) (user : FirebaseUser)
    (state : RouterStateSnapshot) :
  let flow := if google then signInWithGoogle remote
              else signInWithFacebook remote in
  let tag := if google then "google" else "facebook" in
  (if google
   then signInWithPopup_answer remote (requests (world s))
          "google.com" ["email"; "profile"]
   else signInWithPopup_answer remote (requests (world s))
          "facebook.com" ["email"]) = inr user ->
  (forall h q, firestore_fault remote h q = None) ->
  exists s' u,
    run flow s = (Returned tt, s') /\
    session s' = Some u /\
    emailVerified u = user_emailVerified user /\
    match users (world s) !! user_uid user with
    | None =>
        users (world s') !! user_uid user = Some u /\
        uid u = user_uid user /\
        role u = RoleUser /\ provider u = Some tag /\
        fst (AuthGuard_canActivate (session s') state) = true
    | Some d =>
        role u = role d /\ provider u = provider d /\
        createdAt u = createdAt d /\
        users (world s') !! user_uid user
          = Some (set_lastLoginAt ServerTimestamp d)
    end.
Proof.
  intros flow tag Hpop Hok. subst flow tag.
  destruct google.
  - destruct (signInWithSocialProvider_session remote "google.com"
                ["email"; "profile"] "google" s user state Hpop Hok)
      as (s' & u & Hrun & Hs & Huid & Hv & Hcase).
    exists s', u. split; [exact Hrun|]. split; [done|]. split; [done|].
    destruct (users (world s) !! user_uid user); [done|].
    destruct Hcase as (? & ? & ? & Hg). repeat split; try done. by apply Hg.
  - destruct (signInWithSocialProvider_session remote "facebook.com"
                ["email"] "facebook" s user state Hpop Hok)
      as (s' & u & Hrun & Hs & Huid & Hv & Hcase).
    exists s', u. split; [exact Hrun|]. split; [done|]. split; [done|].
    destruct (users (world s) !! user_uid user); [done|].
    destruct Hcase as (? & ? & ? & Hg). repeat split; try done. by apply Hg.
Qed.

Lemma social_sign_in_session_witness :
  exists s' u,
    run (signInWithGoogle obliging_remote) new_State = (Returned tt, s') /\
    session s' = Some u /\
    emailVerified u = false /\
    provider u = Some "google" /\
    fst (AuthGuard_canActivate (session s') {| url := "/dashboard" |}) = true.
Proof.
  destruct (social_sign_in_session obliging_remote true new_State
              sample_identity {| url := "/dashboard" |})
    as (s' & u & Hrun & Hs & Hv & Hcase).
  - reflexivity.
  - reflexivity.
  - change (users (world new_State) !! user_uid sample_identity)
      with (@None UserData) in Hcase.
    destruct Hcase as (_ & _ & _ & Hp & Hg).
    exists s', u. split; [exact Hrun|]. split; [exact Hs|].
    split; [exact Hv|]. split; [exact Hp|exact Hg].
Defined.

(** ** The verify-email page, continued *)

(** The check does not look at the component. *)
Lemma checkEmailVerification_with_cmp (remote : Remote)
    (f : VerifyEmailComponent -> VerifyEmailComponent) (s : State) :
  run (checkEmailVerification remote) (with_cmp f s) =
    (fst (run (checkEmailVerification remote) s),
     with_cmp f (snd (run (checkEmailVerification remote) s))).
Proof.
  unfold checkEmailVerification. unfold_sdk. unfold_runtime. unfold_monad.
  js_exec; done.
Qed.

(** X18.  [checkVerificationNow] never throws and always ends with loading
    false.  If the check returns true it navigates to /dashboard and shows no
    error; if it returns false it shows the not-verified-yet message; if the
    check throws, it shows the thrown value's message (or a default) — in
    both of these cases without navigating. *)
Theorem checkVerificationNow_outcome (remote : Remote) (s : State) :
  exists s',
    run (checkVerificationNow remote) s = (Returned tt, s') /\
    loading (cmp s') = false /\
    match fst (run (checkEmailVerification remote) s) with
    | Returned true =>
        error (cmp s') = None /\
        navigations (world s') =
          navigations (world s) ++ [navigate "/dashboard"]
    | Returned false =>
        error (cmp s') = Some
          "Email is not verified yet. Please check your inbox and click the verification link." /\
        navigations (world s') = navigations (world s)
    | Thrown x =>
        error (cmp s') =
          Some (or_else (err_message (exn_as_error x))
                        "Failed to check verification status") /\
        navigations (world s') = navigations (world s)
    end.
Proof.
  pose proof (checkEmailVerification_frame remote s) as (_ & Hnav & _ & _).
  unfold checkVerificationNow, run, bind, modify, try_finally, try_catch.
  pose proof (checkEmailVerification_with_cmp remote
                (fun c => set_error None (set_loading true c)) s) as Hrun.
  unfold run, with_cmp in *. simpl in *. rewrite Hrun.
  destruct (checkEmailVerification remote s) as [[[]|x] s1]; simpl in *.
  all: eexists; split; [reflexivity|]; simpl; by rewrite ?Hnav.
Qed.

(** X19.  Signing out from the verify-email page never throws: when the
    provider rejects the sign-out the error is logged, the session stays and
    nothing navigates; when it accepts, the session is null and the router
    goes to /login. *)
Theorem VerifyEmailComponent_signOut_outcome (remote : Remote) (s : State) :
  exists s',
    run (VerifyEmailComponent_signOut remote) s = (Returned tt, s') /\
    truthy_handle (emailVerificationCheckInterval (svc s')) = false /\
    match signOut_answer remote (requests (world s)) with
    | Some e =>
        currentUserSubject (svc s') = currentUserSubject (svc s) /\
        navigations (world s') = navigations (world s) /\
        console (world s') = console (world s) ++ ["Error signing out:"]
    | None =>
        session s' = None /\
        navigations (world s') = navigations (world s) ++ [navigate "/login"] /\
        console (world s') = console (world s)
    end.
Proof.
  unfold VerifyEmailComponent_signOut, signOut, stopEmailVerificationCheck,
    session.
  unfold_sdk. unfold_runtime. unfold_monad. simpl.
  destruct (emailVerificationCheckInterval (svc s)) as [| |n] eqn:Hh; simpl.
  3: destruct (n =? 0)%nat eqn:Hn; simpl.
  all: destruct (signOut_answer remote (requests (world s))); simpl.
  all: eexists; split; [reflexivity|]; simpl; rewrite ?Hh; simpl; by rewrite ?Hn.
Qed.

(** ** [maskedEmail] *)

Lemma string_length_app (a b : string) :
  String.length (a +:+ b) = String.length a + String.length b.
Proof. induction a as [|c a IH]; simpl; [done|]. by rewrite IH. Qed.

Lemma string_get_app_l (a b : string) (i : nat) :
  i < String.length a -> String.get i (a +:+ b) = String.get i a.
Proof.
  revert i. induction a as [|c a IH]; intros i Hi; simpl in *; [lia|].
  destruct i; [done|]. apply IH. lia.
Qed.

Lemma string_get_app_r (a b : string) (i : nat) :
  String.get (String.length a + i) (a +:+ b) = String.get i b.
Proof. induction a as [|c a IH]; simpl; [done|]. apply IH. Qed.

Lemma stars_length (n : nat) : String.length (stars n) = n.
Proof. induction n; simpl; congruence. Qed.

Lemma stars_get (n i : nat) : i < n -> String.get i (stars n) = Some "*"%char.
Proof.
  revert i. induction n as [|n IH]; intros i Hi; [lia|].
  destruct i; simpl; [done|]. apply IH. lia.
Qed.

Lemma stars_clean (n : nat) : contains "@" (stars n) = false.
Proof. induction n; simpl; [done|]. done. Qed.

Lemma contains_app (c : ascii) (a b : string) :
  contains c (a +:+ b) = contains c a || contains c b.
Proof.
  induction a as [|x a IH]; simpl; [done|]. by rewrite IH, orb_assoc.
Qed.

Lemma split_on_clean (c : ascii) (s : string) :
  contains c s = false -> split_on c s = [s].
Proof.
  induction s as [|x s IH]; simpl; [done|].
  intros H. apply orb_false_iff in H as [Hx Hs].
  rewrite Hx. by rewrite (IH Hs).
Qed.

Lemma split_on_first (c : ascii) (a b : string) :
  contains c a = false ->
  split_on c (a +:+ String c b) = a :: split_on c b.
Proof.
  induction a as [|x a IH]; simpl.
  - intros _. by rewrite Ascii.eqb_refl.
  - intros H. apply orb_false_iff in H as [Hx Ha].
    rewrite Hx. by rewrite (IH Ha).
Qed.

Lemma string_last (s : string) :
  1 <= String.length s -> exists mid z, s = mid +:+ String z "".
Proof.
  induction s as [|x s IH]; simpl; [lia|]. intros _.
  destruct s as [|y s].
  - by exists "", x.
  - destruct IH as (mid & z & Heq); [simpl; lia|].
    exists (String x mid), z. simpl. by rewrite Heq.
Qed.

(** A text of two characters or more has a first and a last one. *)
Lemma string_ends (s : string) :
  2 <= String.length s ->
  exists a mid z, s = String a (mid +:+ String z "").
Proof.
  destruct s as [|a s]; simpl; [lia|]. intros H.
  destruct (string_last s) as (mid & z & ->); [lia|]. by exists a, mid, z.
Qed.

(** What the getter returns for a local part of three characters or more. *)
Lemma maskedEmail_long (a z : ascii) (mid rest : string) (after : list string) :
  split_on "@" (String a (mid +:+ String z "") +:+ rest)
    = String a (mid +:+ String z "") :: after ->
  maskedEmail (String a (mid +:+ String z "") +:+ rest) =
    if (String.length mid =? 0)%nat
    then String a (mid +:+ String z "") +:+ rest
    else String a (stars (String.length mid) +:+ String z "")
           +:+ "@" +:+ match after with d :: _ => d | [] => "undefined" end.
Proof.
  intros Hsplit. unfold maskedEmail. rewrite Hsplit.
  cbn [nth String.eqb String.append lookup list_lookup].
  cbn [String.length]. rewrite string_length_app. cbn [String.length].
  change (String a (mid +:+ String z "") +:+ rest =? "") with false.
  cbv iota.
  destruct (String.length mid) as [|n] eqn:Hn.
  - done.
  - replace (S (S n + 1) <=? 2)%nat with false
      by (symmetry; apply Nat.leb_gt; lia).
    replace (S (S n + 1) - 2) with (S n) by lia.
    replace (S (S n + 1) - 1) with (S (String.length mid + 0)) by lia.
    unfold char_at. cbn [String.get].
    rewrite string_get_app_r. cbn [String.get Nat.eqb].
    assert (forall x y : string,
              (String a "" +:+ x +:+ String z "") +:+ y
              = String a (x +:+ String z "") +:+ y) as Hre by done.
    rewrite Hre. by destruct after.
Qed.

Lemma string_app_assoc (a b c : string) : (a +:+ b) +:+ c = a +:+ (b +:+ c).
Proof.
  induction a as [|x a IH]; [done|].
  change (String x ((a +:+ b) +:+ c) = String x (a +:+ b +:+ c)).
  by rewrite IH.
Qed.

(** The masked form of [local@domain] for a local part of three characters
    or more, both parts free of '@'. *)
Lemma maskedEmail_plain (a z : ascii) (mid domain : string) :
  contains "@" (String a (mid +:+ String z "")) = false ->
  contains "@" domain = false ->
  1 <= String.length mid ->
  maskedEmail (String a (mid +:+ String z "") +:+ "@" +:+ domain) =
    String a (stars (String.length mid) +:+ String z ("@" +:+ domain)).
Proof.
  intros Hl Hd Hmid.
  rewrite (maskedEmail_long a z mid ("@" +:+ domain) [domain]).
  - replace (String.length mid =? 0)%nat with false
      by (symmetry; apply Nat.eqb_neq; lia).
    change (String a ((stars (String.length mid) +:+ String z "")
                      +:+ "@" +:+ domain)
            = String a (stars (String.length mid)
                        +:+ String z "" +:+ "@" +:+ domain)).
    by rewrite string_app_assoc.
  - change ("@" +:+ domain) with (String "@" domain).
    rewrite split_on_first by done. by rewrite split_on_clean.
Qed.

(** X20.  For an address [local@domain] whose local part has three
    characters or more (and no further '@'), the masked address has the
    length of the original, keeps the first and the last character of the
    local part, shows '*' at every position between them, and keeps '@' and
    the domain; masking it again changes nothing. *)
Theorem maskedEmail_masks (localPart domain : string) :
  contains "@" localPart = false ->
  contains "@" domain = false ->
  2 < String.length localPart ->
  let email := localPart +:+ "@" +:+ domain in
  let n := String.length localPart in
  String.length (maskedEmail email) = String.length email /\
  String.get 0 (maskedEmail email) = String.get 0 localPart /\
  String.get (n - 1) (maskedEmail email) = String.get (n - 1) localPart /\
  (forall i, 0 < i < n - 1 ->
     String.get i (maskedEmail email) = Some "*"%char) /\
  String.get n (maskedEmail email) = Some "@"%char /\
  (forall i, String.get (n + 1 + i) (maskedEmail email) = String.get i domain) /\
  maskedEmail (maskedEmail email) = maskedEmail email.
Proof.
  intros Hl Hd Hlen email n. subst email n.
  destruct (string_ends localPart) as (a & mid & z & ->); [lia|].
  assert (1 <= String.length mid) as Hmid.
  { simpl in Hlen. rewrite string_length_app in Hlen. simpl in Hlen. lia. }
  rewrite (maskedEmail_plain a z mid domain Hl Hd Hmid).
  assert (String.length (String a (mid +:+ String z ""))
          = S (String.length mid + 1)) as Hn.
  { simpl. by rewrite string_length_app. }
  rewrite Hn.
  set (k := String.length mid) in *.
  split.
  { simpl. rewrite !string_length_app. simpl.
    rewrite !string_length_app, stars_length. simpl. fold k. lia. }
  split; [done|].
  split.
  { replace (S (k + 1) - 1) with (S (k + 0)) by lia. simpl.
    rewrite <- (stars_length k) at 1. rewrite string_get_app_r.
    unfold k. by rewrite string_get_app_r. }
  split.
  { intros i Hi. destruct i as [|i]; [lia|]. simpl.
    rewrite string_get_app_l by (rewrite stars_length; lia).
    apply stars_get. lia. }
  split.
  { simpl. replace (k + 1) with (k + 1)%nat by done.
    rewrite <- (stars_length k) at 1. by rewrite string_get_app_r. }
  split.
  { intros i. replace (S (k + 1) + 1 + i) with (S (k + (2 + i))) by lia.
    simpl. rewrite <- (stars_length k) at 1. by rewrite string_get_app_r. }
  assert (contains "@" (String a (stars k +:+ String z "")) = false) as Hl'.
  { change (Ascii.eqb a "@" || contains "@" (stars k +:+ String z "") = false).
    change (Ascii.eqb a "@" || contains "@" (mid +:+ String z "") = false)
      in Hl.
    rewrite contains_app in *. rewrite stars_clean.
    apply orb_false_iff in Hl as [Ha Hz]. apply orb_false_iff in Hz as [_ Hz].
    by rewrite Ha, Hz. }
  pose proof (maskedEmail_plain a z (stars k) domain Hl' Hd) as Hagain.
  rewrite stars_length in Hagain at 2.
  assert (String a (stars k +:+ String z ("@" +:+ domain))
          = String a (stars k +:+ String z "") +:+ "@" +:+ domain) as ->.
  { symmetry.
    change (String a ((stars k +:+ String z "") +:+ "@" +:+ domain)
            = String a (stars k +:+ String z "" +:+ "@" +:+ domain)).
    by rewrite string_app_assoc. }
  rewrite Hagain by (rewrite stars_length; lia).
  change (String a (stars k +:+ String z "" +:+ "@" +:+ domain)
          = String a ((stars k +:+ String z "") +:+ "@" +:+ domain)).
  by rewrite string_app_assoc.
Qed.

Lemma maskedEmail_masks_witness :
  String.length (maskedEmail ("ann.lee" +:+ "@" +:+ "example.com"))
    = String.length ("ann.lee" +:+ "@" +:+ "example.com") /\
  maskedEmail ("ann.lee" +:+ "@" +:+ "example.com") = "a*****e@example.com".
Proof.
  destruct (maskedEmail_masks "ann.lee" "example.com")
    as (Hlen & _); [reflexivity|reflexivity|simpl; lia|].
  split; [exact Hlen|reflexivity].
Defined.

Lemma string_app_nil_r (s : string) : s +:+ "" = s.
Proof.
  induction s as [|x s IH]; [done|].
  change (String x (s +:+ "") = String x s). by rewrite IH.
Qed.

Lemma maskedEmail_short (localPart : string) (after : list string)
    (email : string) :
  split_on "@" email = localPart :: after ->
  String.length localPart <= 2 ->
  maskedEmail email = email.
Proof.
  intros Hsplit Hlen. unfold maskedEmail. rewrite Hsplit.
  destruct email as [|c email]; [done|].
  change (String c email =? "") with false. cbv iota.
  cbn [nth]. apply Nat.leb_le in Hlen. by rewrite Hlen.
Qed.

(** X21.  The edges of [maskedEmail]: an empty address gives the empty
    text; an address whose text before the first '@' has two characters or
    fewer is returned as it is, unmasked; a text of three characters or more
    without any '@' is masked and gets "@undefined" appended; and with a
    second '@' everything from that '@' on is dropped. *)
Theorem maskedEmail_edges :
  maskedEmail "" = "" /\
  (forall localPart rest,
     contains "@" localPart = false -> String.length localPart <= 2 ->
     maskedEmail localPart = localPart /\
     maskedEmail (localPart +:+ "@" +:+ rest) = localPart +:+ "@" +:+ rest) /\
  (forall text,
     contains "@" text = false -> 2 < String.length text ->
     exists a z,
       String.get 0 text = Some a /\
       String.get (String.length text - 1) text = Some z /\
       maskedEmail text =
         String a (stars (String.length text - 2) +:+ String z "")
         +:+ "@undefined") /\
  (forall localPart domain rest,
     contains "@" localPart = false -> contains "@" domain = false ->
     2 < String.length localPart ->
     maskedEmail (localPart +:+ "@" +:+ domain +:+ "@" +:+ rest) =
       maskedEmail (localPart +:+ "@" +:+ domain)).
Proof.
  split; [done|]. split; [|split].
  - intros l rest Hl Hlen. split.
    + apply (maskedEmail_short l []); [by apply split_on_clean|done].
    + apply (maskedEmail_short l (split_on "@" rest)); [|done].
      change ("@" +:+ rest) with (String "@" rest). by apply split_on_first.
  - intros text Hc Hlen.
    destruct (string_ends text) as (a & mid & z & ->); [lia|].
    exists a, z.
    assert (String.length (String a (mid +:+ String z ""))
            = S (String.length mid + 1)) as Hn.
    { simpl. by rewrite string_length_app. }
    rewrite Hn in *. split; [done|]. split.
    { replace (S (String.length mid + 1) - 1)
        with (S (String.length mid + 0)) by lia.
      simpl. by rewrite string_get_app_r. }
    rewrite <- (string_app_nil_r (String a (mid +:+ String z ""))) at 1.
    rewrite (maskedEmail_long a z mid "" []).
    + replace (String.length mid =? 0)%nat with false
        by (symmetry; apply Nat.eqb_neq; lia).
      by replace (S (String.length mid + 1) - 2)
        with (String.length mid) by lia.
    + rewrite string_app_nil_r. by apply split_on_clean.
  - intros l d rest Hl Hd Hlen.
    destruct (string_ends l) as (a & mid & z & ->); [lia|].
    assert (1 <= String.length mid) as Hmid.
    { simpl in Hlen. rewrite string_length_app in Hlen. simpl in Hlen. lia. }
    rewrite (maskedEmail_long a z mid ("@" +:+ d +:+ "@" +:+ rest)
               (d :: split_on "@" rest)).
    + rewrite (maskedEmail_long a z mid ("@" +:+ d) [d]).
      { by replace (String.length mid =? 0)%nat with false
          by (symmetry; apply Nat.eqb_neq; lia). }
      change ("@" +:+ d) with (String "@" d).
      rewrite split_on_first by done. by rewrite split_on_clean.
    + change ("@" +:+ d +:+ "@" +:+ rest)
        with (String "@" (d +:+ String "@" rest)).
      rewrite split_on_first by done. by rewrite split_on_first.
Qed.

(** ** The callers *)

Lemma session_flows_do_not_navigate (remote : Remote) (f : Flow) (s : State) :
  navigations (world (snd (run (call remote f) s))) = navigations (world s).
Proof.
  destruct f; simpl.
  all: unfold signInWithGoogle, signInWithFacebook, signInWithSocialProvider,
         signUp, signIn, getUserData, updateLastLogin, saveUserData.
  all: unfold_sdk; unfold_runtime; unfold_monad.
  all: js_exec; done.
Qed.

(** X22.  Submitting the login form.  With an invalid form nothing happens
    but the controls being marked touched: no request, no navigation.  With
    a valid form the handler never throws.  When signIn throws, its message
    (a non-empty text) becomes the error shown and nothing navigates.  When
    signIn returns, the error is cleared and exactly one navigation happens:
    to the return URL if the published session is verified, otherwise (and
    also when no session was published) to /verify-email; in the first case
    the Authenticated guard admits the session. *)
Theorem LoginComponent_onSubmit_outcome
    (remote : Remote) (c : LoginComponent) (f : LoginForm) (s : State)
    (state : RouterStateSnapshot) :
  if form_invalid f then
    run (LoginComponent_onSubmit remote c f) s
      = (Returned (c, markFormGroupTouched f), s)
  else
    match run (signIn remote (form_email f) (form_password f)) s with
    | (Returned _, s1) =>
        exists s',
          run (LoginComponent_onSubmit remote c f) s
            = (Returned (set_login_error None c, f), s') /\
          svc s' = svc s1 /\
          navigations (world s') =
            navigations (world s) ++
              [navigate (if isEmailVerified s1 then returnUrl c
                         else "/verify-email")] /\
          (session s1 = None -> isEmailVerified s1 = false) /\
          (isEmailVerified s1 = true ->
           fst (AuthGuard_canActivate (session s') state) = true)
    | (Thrown x, s1) =>
        exists msg,
          run (LoginComponent_onSubmit remote c f) s
            = (Returned (set_login_error (Some msg) c, f), s1) /\
          msg <> "" /\
          msg = or_else (err_message (exn_as_error x))
                        "An error occurred during sign in" /\
          navigations (world s1) = navigations (world s)
    end.
Proof.
  unfold LoginComponent_onSubmit.
  destruct (form_invalid f); [done|].
  pose proof (session_flows_do_not_navigate remote
                (CallSignIn (form_email f) (form_password f)) s) as Hnav.
  simpl in Hnav.
  unfold run, try_catch, bind, get, ret, router_navigate, modify in *.
  destruct (signIn remote (form_email f) (form_password f) s)
    as [[[]|x] s1]; simpl in *.
  - unfold isEmailVerified, session.
    destruct (value (currentUserSubject (svc s1))) as [u|] eqn:Hu; simpl.
    + destruct (emailVerified u) eqn:Hv; simpl.
      all: eexists; split; [reflexivity|]; simpl; rewrite Hnav, ?Hu; simpl.
      all: rewrite ?Hv; by repeat split.
    + eexists; split; [reflexivity|]; simpl; rewrite Hnav, ?Hu.
      by repeat split.
  - eexists. split; [reflexivity|]. split; [by apply or_else_nonempty|done].
Qed.

Lemma LoginComponent_onSubmit_outcome_witness :
  exists s',
    run (LoginComponent_onSubmit obliging_remote sample_login sample_login_form)
        new_State
      = (Returned (set_login_error None sample_login, sample_login_form), s') /\
    session s' = None /\
    navigations (world s') = [navigate "/verify-email"].
Proof.
  pose proof (LoginComponent_onSubmit_outcome obliging_remote sample_login
                sample_login_form new_State {| url := "/vehicles" |}) as H.
  assert (run (signIn obliging_remote "a@b.com" "Abc123") new_State
          = (Returned tt,
             snd (run (signIn obliging_remote "a@b.com" "Abc123") new_State)))
    as Hrun by (by vm_compute).
  simpl form_invalid in H. cbv iota in H.
  change (form_email sample_login_form) with "a@b.com" in H.
  change (form_password sample_login_form) with "Abc123" in H.
  rewrite Hrun in H. destruct H as (s' & Hs' & Hsvc & Hnav & _).
  exists s'. split; [exact Hs'|]. split.
  - unfold session. rewrite Hsvc. by vm_compute.
  - rewrite Hnav. by vm_compute.
Defined.

Lemma signUp_session_unverified
    (remote : Remote) (email password name : string) (s s1 : State)
    (state : RouterStateSnapshot) :
  run (signUp remote email password name) s = (Returned tt, s1) ->
  AuthGuard_canActivate (session s1) state = (false, [navigate "/verify-email"]).
Proof.
  unfold signUp, saveUserData, session.
  unfold_sdk. unfold_runtime. unfold_monad.
  js_exec; by intros [= <-].
Qed.

(** X23.  Submitting the sign-up form.  With an invalid form nothing happens
    but the controls being marked touched.  With a valid form the handler
    never throws: when signUp returns, the error is cleared and the only
    navigation is to /verify-email, where the new session belongs (the
    Authenticated guard would send it there too); when signUp throws, its
    non-empty message becomes the error shown and nothing navigates. *)
Theorem SignupComponent_onSubmit_outcome
    (remote : Remote) (c : SignupComponent) (f : SignupForm) (s : State)
    (state : RouterStateSnapshot) :
  if signup_invalid f then
    run (SignupComponent_onSubmit remote c f) s
      = (Returned (c, markSignupFormTouched f), s)
  else
    match run (signUp remote (signup_email f) (signup_password f)
                 (signup_displayName f)) s with
    | (Returned _, s1) =>
        exists s',
          run (SignupComponent_onSubmit remote c f) s
            = (Returned ({| signup_error := None |}, f), s') /\
          svc s' = svc s1 /\
          navigations (world s') =
            navigations (world s) ++ [navigate "/verify-email"] /\
          AuthGuard_canActivate (session s') state
            = (false, [navigate "/verify-email"])
    | (Thrown x, s1) =>
        exists msg,
          run (SignupComponent_onSubmit remote c f) s
            = (Returned ({| signup_error := Some msg |}, f), s1) /\
          msg <> "" /\
          msg = or_else (err_message (exn_as_error x))
                        "An error occurred during sign up" /\
          navigations (world s1) = navigations (world s)
    end.
Proof.
  unfold SignupComponent_onSubmit.
  destruct (signup_invalid f); [done|].
  pose proof (session_flows_do_not_navigate remote
                (CallSignUp (signup_email f) (signup_password f)
                            (signup_displayName f)) s) as Hnav.
  simpl in Hnav.
  destruct (run (signUp remote (signup_email f) (signup_password f)
                   (signup_displayName f)) s) as [[[]|x] s1] eqn:Hrun.
  - pose proof (signUp_session_unverified remote _ _ _ s s1 state Hrun) as Hg.
    unfold run, try_catch, bind, ret, router_navigate, modify in *.
    rewrite Hrun in *. simpl in *.
    eexists. split; [reflexivity|]. simpl. rewrite Hnav.
    split; [done|]. split; [done|]. exact Hg.
  - unfold run, try_catch, bind, ret in *. rewrite Hrun in *. simpl in *.
    eexists. split; [reflexivity|]. split; [by apply or_else_nonempty|done].
Qed.

(** X24.  The social buttons of the login page never throw.  When the
    service call returns they clear the error and navigate once, to the
    return URL, without looking at the verification flag (unlike the form);
    when it throws, its non-empty message becomes the error shown and nothing
    navigates. *)
Theorem LoginComponent_social_outcome
    (remote : Remote) (google : bool) (c : LoginComponent) (s : State) :
  let handler := if google then LoginComponent_signInWithGoogle remote c
                 else LoginComponent_signInWithFacebook remote c in
  let flow := if google then CallSignInWithGoogle else CallSignInWithFacebook in
  match run (call remote flow) s with
  | (Returned _, s1) =>
      exists s',
        run handler s = (Returned (set_login_error None c), s') /\
        svc s' = svc s1 /\
        navigations (world s') =
          navigations (world s) ++ [navigate (returnUrl c)]
  | (Thrown x, s1) =>
      exists msg,
        run handler s = (Returned (set_login_error (Some msg) c), s1) /\
        msg <> "" /\
        msg = or_else (err_message (exn_as_error x))
                (if google then "An error occurred with Google sign in"
                 else "An error occurred with Facebook sign in") /\
        navigations (world s1) = navigations (world s)
  end.
Proof.
  intros handler flow. subst handler flow.
  pose proof (session_flows_do_not_navigate remote
                (if google then CallSignInWithGoogle
                 else CallSignInWithFacebook) s) as Hnav.
  destruct google; simpl in *.
  all: unfold LoginComponent_signInWithGoogle,
         LoginComponent_signInWithFacebook.
  all: unfold run, try_catch, bind, ret, router_navigate, modify in *.
  - destruct (signInWithGoogle remote s) as [[[]|x] s1]; simpl in *.
    + eexists. split; [reflexivity|]. simpl. by rewrite Hnav.
    + eexists. split; [reflexivity|].
      split; [by apply or_else_nonempty|done].
  - destruct (signInWithFacebook remote s) as [[[]|x] s1]; simpl in *.
    + eexists. split; [reflexivity|]. simpl. by rewrite Hnav.
    + eexists. split; [reflexivity|].
      split; [by apply or_else_nonempty|done].
Qed.

(** X25.  The getters of the service and the guards read one snapshot the
    same way: the Admin guard admits exactly when isAdmin and
    isEmailVerified hold, the Technician guard exactly when isTechnician and
    isEmailVerified hold, the Guest-only guard exactly when isAuthenticated
    does not; isAdmin and isTechnician exclude each other and each implies
    isAuthenticated; and a verified session passes the Authenticated
    guard. *)
Theorem getters_agree_with_guards (s : State) (state : RouterStateSnapshot) :
  fst (AdminGuard_canActivate (currentUser s) state)
    = isAdmin s && isEmailVerified s /\
  fst (TechnicianGuard_canActivate (currentUser s) state)
    = isTechnician s && isEmailVerified s /\
  fst (GuestGuard_canActivate (currentUser s)) = negb (isAuthenticated s) /\
  (isEmailVerified s = true ->
   fst (AuthGuard_canActivate (currentUser s) state) = true) /\
  (fst (AuthGuard_canActivate (currentUser s) state) = true ->
   isAuthenticated s = true) /\
  isAdmin s && isTechnician s = false /\
  (isAdmin s || isTechnician s || isEmailVerified s = true ->
   isAuthenticated s = true).
Proof.
  unfold currentUser, isAdmin, isTechnician, isEmailVerified, isAuthenticated.
  destruct (value (currentUserSubject (svc s))) as [u|]; simpl; [|done].
  destruct (emailVerified u), (role u), (provider_is_email u); simpl; done.
Qed.

Lemma resendCooldown_floor_witness :
  (0 <= resendCooldown
          (cmp (after obliging_remote
                  [Resend; Expire 1; Resend; Expire 1; SignOut]
                  signed_in_State)) <= 60)%Z /\
  resendCooldown
    (cmp (after obliging_remote [Resend; Expire 1; Resend; Expire 1; SignOut]
            signed_in_State)) = 58%Z.
Proof.
  split; [|by vm_compute].
  apply (resendCooldown_floor obliging_remote
           [Resend; Expire 1; Resend; Expire 1; SignOut] signed_in_State).
  unfold cooldown_invariant; simpl. split; [lia|]. split; [done|].
  split; [done|]. split; [lia|]. intros id t Hl. by rewrite lookup_empty in Hl.
Defined.
